(** * BuildLink upload negotiator: [lambda_script.mjs]

    A shallow embedding of the Lambda handler that decides between a single
    presigned PUT and an S3 multipart upload, and of the properties its
    specification states about it.

    Layout: JavaScript values and coercions, the S3 collaborator as a
    history-dependent oracle with a call trace, the functions of the source
    file in their order, then the theorems. *)

From Stdlib Require Import String List ZArith QArith Qround Bool Lia.
Import ListNotations.
Local Open Scope string_scope.
Local Open Scope Z_scope.
Set Warnings "-register-all".

(** ** JavaScript values *)

(** Numbers. A JSON number literal denotes a finite number; it is kept as an
    exact rational, so the rounding of double arithmetic is not part of the
    model (nor are the infinities that an overflowing literal gives).  [NaN]
    arises from coercions only. *)
Inductive JSNumber : Type :=
| NaN
| Fin (q : Q).

(** What [JSON.parse] can produce, plus [undefined] for a property that is
    not there.  An object is the list of its own properties, each key once. *)
Inductive JSValue : Type :=
| JUndefined
| JNull
| JBool (b : bool)
| JNum (n : JSNumber)
| JStr (s : string)
| JArr (items : list JSValue)
| JObj (props : list (string * JSValue)).

Definition JInt (z : Z) : JSValue := JNum (Fin (inject_Z z)).

(** ToBoolean: [undefined], [null], [false], [0], [NaN] and [""] are falsy,
    everything else (every array and object included) is truthy. *)
Definition truthy (v : JSValue) : bool :=
  match v with
  | JUndefined | JNull => false
  | JBool b => b
  | JNum NaN => false
  | JNum (Fin q) => negb (Qeq_bool q 0)
  | JStr s => negb (String.eqb s "")
  | JArr _ | JObj _ => true
  end.

Fixpoint lookup (key : string) (props : list (string * JSValue)) : JSValue :=
  match props with
  | [] => JUndefined
  | (k, v) :: rest => if String.eqb k key then v else lookup key rest
  end.

(** Property read [v.key] for the keys this program reads ([fileName],
    [contentType], [fileSize], [uploadId], [complete], [parts], [UploadId]):
    none of them is defined on a primitive's wrapper, on [Array.prototype] or
    on [Object.prototype], so only an object's own properties answer. *)
Definition get (v : JSValue) (key : string) : JSValue :=
  match v with
  | JObj props => lookup key props
  | _ => JUndefined
  end.

(** Errors as thrown values: only [message] is ever read. *)
Record JSError : Type := mkError { name : string; message : string }.

Inductive Completion (A : Type) : Type :=
| Normal (a : A)
| Abrupt (e : JSError).
Arguments Normal {A} a.
Arguments Abrupt {A} e.

Definition and_then {A B : Type} (c : Completion A) (k : A -> Completion B)
    : Completion B :=
  match c with
  | Normal a => k a
  | Abrupt e => Abrupt e
  end.

(** An object destructuring pattern [const { p, ... } = v] throws a
    [TypeError] on [undefined] and [null] and reads properties off anything
    else.  The message is V8's; [what] is the source text of [v]. *)
Definition nullish_text (v : JSValue) : string :=
  match v with JNull => "null" | _ => "undefined" end.

Definition destructure (first what : string) (v : JSValue)
    : Completion JSValue :=
  match v with
  | JUndefined | JNull =>
      Abrupt (mkError "TypeError"
                ("Cannot destructure property '" ++ first ++ "' of '" ++ what
                 ++ "' as it is " ++ nullish_text v ++ "."))
  | _ => Normal v
  end.

(** Numeric comparison and arithmetic as used with the size limit. *)
Definition num_leb (a b : JSNumber) : bool :=
  match a, b with
  | Fin x, Fin y => Qle_bool x y
  | _, _ => false
  end.

(** [a / b] for a nonzero divisor [b] (the only divisor in the program is the
    constant limit). *)
Definition num_div (a b : JSNumber) : JSNumber :=
  match a, b with
  | Fin x, Fin y => Fin (x / y)
  | _, _ => NaN
  end.

Definition Math_ceil (a : JSNumber) : JSNumber :=
  match a with
  | NaN => NaN
  | Fin x => Fin (inject_Z (Qceiling x))
  end.

(** ** The request and the response *)

(** [JSON.parse] belongs to the runtime.  A body text is represented by what
    [JSON.parse] does with it: throw a [SyntaxError], or return a value. *)
Inductive BodyText : Type :=
| Malformed
| Encodes (v : JSValue).

Definition JSON_parse (text : BodyText) : Completion JSValue :=
  match text with
  | Malformed => Abrupt (mkError "SyntaxError" "Unexpected token")
  | Encodes v => Normal v
  end.

(** [event.body]: [None] stands for a falsy body ([undefined], [null], [""]). *)
Record Event : Type := { event_body : option BodyText }.

(** The text [JSON.stringify] makes of a value, kept symbolic. *)
Inductive JSONText : Type :=
| JSON_stringify (v : JSValue).

Record Response : Type := {
  statusCode : Z;
  headers : list (string * string);
  body : JSONText
}.

(** ** The S3 collaborator *)

(** The commands of [@aws-sdk/client-s3] that the file imports. *)
Inductive Command : Type :=
| PutObjectCommand (Bucket Key ContentType : JSValue)
| CreateMultipartUploadCommand (Bucket Key ContentType : JSValue)
| UploadPartCommand (Bucket Key UploadId : JSValue) (PartNumber : Z)
| CompleteMultipartUploadCommand (Bucket Key UploadId Parts : JSValue)
| AbortMultipartUploadCommand (Bucket Key UploadId : JSValue).

(** The two asynchronous entry points: [getSignedUrl(s3Client, cmd,
    { expiresIn })] and [s3Client.send(cmd)]. *)
Inductive Call : Type :=
| GetSignedUrl (cmd : Command) (expiresIn : Z)
| Send (cmd : Command).

Inductive Settled : Type :=
| Resolve (v : JSValue)
| Reject (e : JSError).

(** The calls of one invocation so far, oldest first, with how each settled. *)
Definition Trace : Type := list (Call * Settled).

(** The collaborator answers a call knowing the calls before it, so it may
    answer the same call differently the second time. *)
Definition Backend : Type := Trace -> Call -> Settled.

(** ** Asynchronous code: a trace-state monad with exceptions *)

Definition Async (A : Type) : Type := Trace -> Completion A * Trace.

Definition ret {A : Type} (a : A) : Async A := fun t => (Normal a, t).

Definition bind {A B : Type} (m : Async A) (k : A -> Async B) : Async B :=
  fun t =>
    match m t with
    | (Normal a, t') => k a t'
    | (Abrupt e, t') => (Abrupt e, t')
    end.

Definition lift {A : Type} (c : Completion A) : Async A :=
  fun t => (c, t).

Definition try_catch {A : Type} (m : Async A) (handle : JSError -> Async A)
    : Async A :=
  fun t =>
    match m t with
    | (Normal a, t') => (Normal a, t')
    | (Abrupt e, t') => handle e t'
    end.

Declare Scope async_scope.
Delimit Scope async_scope with async.
Notation "x <- m ;; k" := (bind m (fun x => k))
  (at level 100, m at next level, right associativity) : async_scope.
Local Open Scope async_scope.

Definition settle (s : Settled) : Completion JSValue :=
  match s with
  | Resolve v => Normal v
  | Reject e => Abrupt e
  end.

(** What the module finds around it when it is loaded: the bucket name of
    [process.env.S3_BUCKET_NAME]; the runtime's StringToNumber (on non-empty
    strings); its ToPrimitive on an array or object, which gives the string
    of [toString], or throws a [TypeError] when a property named [toString]
    hides the method; and the client and presigner behind [s3Client]. *)
Class Runtime : Type := {
  BUCKET : JSValue;
  StringToNumber : string -> JSNumber;
  ObjectToPrimitive : JSValue -> Completion string;
  s3Client : Backend
}.

Section Negotiator.

Context {rt : Runtime}.

(** The empty string converts to 0; the other strings are the runtime's. *)
Definition string_to_number (s : string) : JSNumber :=
  if String.eqb s "" then Fin 0 else StringToNumber s.

(** ToNumber, with the ToPrimitive step that an array or object needs. *)
Definition ToNumber (v : JSValue) : Completion JSNumber :=
  match v with
  | JUndefined => Normal NaN
  | JNull => Normal (Fin 0)
  | JBool b => Normal (Fin (if b then 1 else 0))
  | JNum n => Normal n
  | JStr s => Normal (string_to_number s)
  | JArr _ | JObj _ =>
      and_then (ObjectToPrimitive v) (fun s => Normal (string_to_number s))
  end.

(** [await] of a collaborator call: the call is appended to the trace. *)
Definition await (c : Call) : Async JSValue :=
  fun t =>
    let s := s3Client t c in
    (settle s, (t ++ [(c, s)])%list).

(** Max single upload size ~5MB. *)
Definition SINGLE_UPLOAD_LIMIT : Z := 5 * 1024 * 1024.

Definition LIMIT : JSNumber := Fin (inject_Z SINGLE_UPLOAD_LIMIT).

(** [v <= SINGLE_UPLOAD_LIMIT] and [v > SINGLE_UPLOAD_LIMIT] as JavaScript
    decides them: on the number [v] converts to, and false on [NaN]. *)
Definition at_most_limit (v : JSValue) : Prop :=
  exists q,
    ToNumber v = Normal (Fin q) /\ (q <= inject_Z SINGLE_UPLOAD_LIMIT)%Q.

Definition above_limit (v : JSValue) : Prop :=
  exists q,
    ToNumber v = Normal (Fin q) /\ (inject_Z SINGLE_UPLOAD_LIMIT < q)%Q.

Definition formatResponse (status : Z) (payload : JSValue) : Response :=
  {| statusCode := status;
     headers := [("Content-Type", "application/json")];
     body := JSON_stringify payload |}.

Definition chooseUploadType (fileSize : JSValue) : Completion string :=
  if negb (truthy fileSize) then Normal "single"
  else
    and_then (ToNumber fileSize) (fun size =>
      Normal (if num_leb size LIMIT then "single" else "multipart")).

(** Generate presigned URL for single upload. *)
Definition getPresignedUrl (fileName contentType : JSValue) : Async JSValue :=
  let command := PutObjectCommand BUCKET fileName contentType in
  url <- await (GetSignedUrl command 900) ;;
  ret (JObj [("uploadType", JStr "single"); ("fileName", fileName);
             ("contentType", contentType); ("url", url)]).

(** The [for (let partNumber = 1; partNumber <= totalParts; partNumber++)]
    loop.  [fuel] bounds the iterations; [iterations] below gives a bound
    that the loop condition exhausts first (see [forParts_unfold]). *)
Fixpoint forParts (fuel : nat) (fileName UploadId : JSValue)
    (totalParts : JSNumber) (partNumber : Z) (urls : list JSValue)
    : Async (list JSValue) :=
  match fuel with
  | O => ret urls
  | S fuel' =>
      if num_leb (Fin (inject_Z partNumber)) totalParts then
        let uploadPartCommand :=
          UploadPartCommand BUCKET fileName UploadId partNumber in
        url <- await (GetSignedUrl uploadPartCommand 3600) ;;
        forParts fuel' fileName UploadId totalParts (partNumber + 1)
          (urls ++ [JObj [("partNumber", JInt partNumber); ("url", url)]])%list
      else ret urls
  end.

Definition iterations (totalParts : JSNumber) (partNumber : Z) : nat :=
  match totalParts with
  | NaN => O
  | Fin t => Z.to_nat (Qfloor t + 1 - partNumber)
  end.

(** Start multipart and generate presigned URLs. *)
Definition startMultipart (fileName contentType fileSize : JSValue)
    : Async JSValue :=
  size <- lift (ToNumber fileSize) ;;
  let totalParts := Math_ceil (num_div size LIMIT) in
  let createCommand :=
    CreateMultipartUploadCommand BUCKET fileName contentType in
  output <- await (Send createCommand) ;;
  output <- lift (destructure "UploadId" "(intermediate value)" output) ;;
  let UploadId := get output "UploadId" in
  urls <- forParts (iterations totalParts 1) fileName UploadId totalParts 1
            [] ;;
  ret (JObj [("uploadType", JStr "multipart"); ("fileName", fileName);
             ("contentType", contentType); ("uploadId", UploadId);
             ("totalParts", JNum totalParts); ("urls", JArr urls)]).

(** Complete multipart. *)
Definition completeMultipart (fileName uploadId parts : JSValue)
    : Async JSValue :=
  let command :=
    CompleteMultipartUploadCommand BUCKET fileName uploadId parts in
  result <- await (Send command) ;;
  ret (JObj [("uploadType", JStr "multipart"); ("fileName", fileName);
             ("result", result)]).

Definition error_body (text : string) : JSValue := JObj [("error", JStr text)].

Definition MISSING_FIELDS : string :=
  "Missing 'fileName', 'contentType' or 'fileSize'".

Definition INVALID_MULTIPART : string :=
  "Invalid multipart request. Make sure to provide 'uploadId', 'complete', and 'parts' when completing multipart upload.".

(** The body of the handler's second [try] block. *)
Definition negotiate
    (fileName contentType fileSize uploadId complete parts : JSValue)
    : Async Response :=
  uploadType <- lift (chooseUploadType fileSize) ;;
  if String.eqb uploadType "single" then
    response <- getPresignedUrl fileName contentType ;;
    ret (formatResponse 200 response)
  else if String.eqb uploadType "multipart" then
    if negb (truthy uploadId) then
      response <- startMultipart fileName contentType fileSize ;;
      ret (formatResponse 200 response)
    else if truthy uploadId && truthy complete && truthy parts then
      response <- completeMultipart fileName uploadId parts ;;
      ret (formatResponse 200 response)
    else ret (formatResponse 400 (error_body INVALID_MULTIPART))
  else ret (formatResponse 400 (error_body "Invalid request flow")).

(** [event.body ? JSON.parse(event.body) : {}], the first [try] block. *)
Definition parse_body (event : Event) : Completion JSValue :=
  match event_body event with
  | Some text => JSON_parse text
  | None => Normal (JObj [])
  end.

(** Lambda handler.  [console.error] writes to the log only and is left
    out. *)
Definition handler (event : Event) : Async Response :=
  match parse_body event with
  | Abrupt _ => ret (formatResponse 400 (error_body "Invalid JSON body"))
  | Normal parsed =>
      parsed <- lift (destructure "fileName" "body" parsed) ;;
      let fileName := get parsed "fileName" in
      let contentType := get parsed "contentType" in
      let fileSize := get parsed "fileSize" in
      let uploadId := get parsed "uploadId" in
      let complete := get parsed "complete" in
      let parts := get parsed "parts" in
      if negb (truthy fileName) || negb (truthy contentType)
         || negb (truthy fileSize)
      then ret (formatResponse 400 (error_body MISSING_FIELDS))
      else
        try_catch
          (negotiate fileName contentType fileSize uploadId complete parts)
          (fun err => ret (formatResponse 500 (error_body (message err))))
  end.

(** One invocation: the handler run from an empty trace. *)
Definition invoke (event : Event) : Completion Response * Trace :=
  handler event [].

(** *** What a run looks like *)

(** The part numbers [start, start + 1, ...], [n] of them. *)
Fixpoint zrange (start : Z) (n : nat) : list Z :=
  match n with
  | O => []
  | S n' => start :: zrange (start + 1) n'
  end.

(** The entry pushed on [urls], and the signing call it came from, for a
    part number and the URL the presigner resolved with. *)
Definition part_entry (pu : Z * JSValue) : JSValue :=
  JObj [("partNumber", JInt (fst pu)); ("url", snd pu)].

Definition part_call (fileName UploadId : JSValue) (pu : Z * JSValue)
    : Call * Settled :=
  (GetSignedUrl (UploadPartCommand BUCKET fileName UploadId (fst pu)) 3600,
   Resolve (snd pu)).

Definition SingleUploadPlan (fileName contentType url : JSValue) : JSValue :=
  JObj [("uploadType", JStr "single"); ("fileName", fileName);
        ("contentType", contentType); ("url", url)].

Definition MultipartStartPlan
    (fileName contentType uploadId : JSValue) (totalParts : JSNumber)
    (urls : list JSValue) : JSValue :=
  JObj [("uploadType", JStr "multipart"); ("fileName", fileName);
        ("contentType", contentType); ("uploadId", uploadId);
        ("totalParts", JNum totalParts); ("urls", JArr urls)].

Definition MultipartCompleteResult (fileName result : JSValue) : JSValue :=
  JObj [("uploadType", JStr "multipart"); ("fileName", fileName);
        ("result", result)].

(** [fileName], [contentType] and [fileSize] all pass the handler's
    [!field] tests. *)
Definition required_present (parsed : JSValue) : bool :=
  truthy (get parsed "fileName") && truthy (get parsed "contentType")
  && truthy (get parsed "fileSize").

(** The runs of the handler on a parsed request, by the path taken.  The
    relation does not mention the collaborator: each constructor lists the
    calls made and how they settled. *)
Inductive Run (parsed : JSValue) : Completion Response -> Trace -> Prop :=
| Run_nullish e :
    destructure "fileName" "body" parsed = Abrupt e ->
    Run parsed (Abrupt e) []
| Run_missing :
    destructure "fileName" "body" parsed = Normal parsed ->
    required_present parsed = false ->
    Run parsed (Normal (formatResponse 400 (error_body MISSING_FIELDS))) []
| Run_unconvertible e :
    required_present parsed = true ->
    chooseUploadType (get parsed "fileSize") = Abrupt e ->
    Run parsed (Normal (formatResponse 500 (error_body (message e)))) []
| Run_single s :
    required_present parsed = true ->
    chooseUploadType (get parsed "fileSize") = Normal "single" ->
    Run parsed
      (Normal match s with
              | Resolve url =>
                  formatResponse 200
                    (SingleUploadPlan (get parsed "fileName")
                       (get parsed "contentType") url)
              | Reject e => formatResponse 500 (error_body (message e))
              end)
      [(GetSignedUrl
          (PutObjectCommand BUCKET (get parsed "fileName")
             (get parsed "contentType")) 900, s)]
| Run_start_refused e :
    required_present parsed = true ->
    chooseUploadType (get parsed "fileSize") = Normal "multipart" ->
    truthy (get parsed "uploadId") = false ->
    Run parsed
      (Normal (formatResponse 500 (error_body (message e))))
      [(Send (CreateMultipartUploadCommand BUCKET (get parsed "fileName")
                (get parsed "contentType")), Reject e)]
| Run_start_no_output output e :
    required_present parsed = true ->
    chooseUploadType (get parsed "fileSize") = Normal "multipart" ->
    truthy (get parsed "uploadId") = false ->
    destructure "UploadId" "(intermediate value)" output = Abrupt e ->
    Run parsed
      (Normal (formatResponse 500 (error_body (message e))))
      [(Send (CreateMultipartUploadCommand BUCKET (get parsed "fileName")
                (get parsed "contentType")), Resolve output)]
| Run_start size output signed :
    required_present parsed = true ->
    chooseUploadType (get parsed "fileSize") = Normal "multipart" ->
    truthy (get parsed "uploadId") = false ->
    ToNumber (get parsed "fileSize") = Normal size ->
    let totalParts := Math_ceil (num_div size LIMIT) in
    let numbered := combine (zrange 1 (iterations totalParts 1)) signed in
    length signed = iterations totalParts 1 ->
    Run parsed
      (Normal (formatResponse 200
                 (MultipartStartPlan (get parsed "fileName")
                    (get parsed "contentType") (get output "UploadId")
                    totalParts (map part_entry numbered))))
      ((Send (CreateMultipartUploadCommand BUCKET (get parsed "fileName")
                (get parsed "contentType")), Resolve output)
       :: map (part_call (get parsed "fileName") (get output "UploadId"))
            numbered)
| Run_start_unsigned size output signed e :
    required_present parsed = true ->
    chooseUploadType (get parsed "fileSize") = Normal "multipart" ->
    truthy (get parsed "uploadId") = false ->
    ToNumber (get parsed "fileSize") = Normal size ->
    let totalParts := Math_ceil (num_div size LIMIT) in
    let numbered := combine (zrange 1 (length signed)) signed in
    (length signed < iterations totalParts 1)%nat ->
    Run parsed
      (Normal (formatResponse 500 (error_body (message e))))
      ((Send (CreateMultipartUploadCommand BUCKET (get parsed "fileName")
                (get parsed "contentType")), Resolve output)
       :: map (part_call (get parsed "fileName") (get output "UploadId"))
            numbered
       ++ [(GetSignedUrl
              (UploadPartCommand BUCKET (get parsed "fileName")
                 (get output "UploadId") (1 + Z.of_nat (length signed)))
              3600, Reject e)])%list
| Run_complete s :
    required_present parsed = true ->
    chooseUploadType (get parsed "fileSize") = Normal "multipart" ->
    truthy (get parsed "uploadId") && truthy (get parsed "complete")
      && truthy (get parsed "parts") = true ->
    Run parsed
      (Normal match s with
              | Resolve result =>
                  formatResponse 200
                    (MultipartCompleteResult (get parsed "fileName") result)
              | Reject e => formatResponse 500 (error_body (message e))
              end)
      [(Send (CompleteMultipartUploadCommand BUCKET (get parsed "fileName")
                (get parsed "uploadId") (get parsed "parts")), s)]
| Run_incomplete :
    required_present parsed = true ->
    chooseUploadType (get parsed "fileSize") = Normal "multipart" ->
    truthy (get parsed "uploadId") = true ->
    truthy (get parsed "complete") && truthy (get parsed "parts") = false ->
    Run parsed
      (Normal (formatResponse 400 (error_body INVALID_MULTIPART))) [].

Definition runs_as (parsed : JSValue) (r : Completion Response * Trace)
    : Prop :=
  Run parsed (fst r) (snd r).

End Negotiator.

(** ** The four response shapes of the data model *)

Inductive Shape : Type :=
| IsSingleUploadPlan
| IsMultipartStartPlan
| IsMultipartCompleteResult
| IsErrorResponse.

Definition keys (v : JSValue) : list string :=
  match v with
  | JObj props => map fst props
  | _ => []
  end.

Fixpoint same_strings (l l' : list string) : bool :=
  match l, l' with
  | [], [] => true
  | a :: l, b :: l' => String.eqb a b && same_strings l l'
  | _, _ => false
  end.

Definition has_keys (v : JSValue) (ks : list string) : bool :=
  same_strings (keys v) ks.

Definition is_string (v : JSValue) (s : string) : bool :=
  match v with
  | JStr s' => String.eqb s' s
  | _ => false
  end.

(** Which shape a response payload has, by its keys and its [uploadType]. *)
Definition shape_of (payload : JSValue) : option Shape :=
  if has_keys payload ["uploadType"; "fileName"; "contentType"; "url"]
     && is_string (get payload "uploadType") "single"
  then Some IsSingleUploadPlan
  else if has_keys payload
            ["uploadType"; "fileName"; "contentType"; "uploadId";
             "totalParts"; "urls"]
          && is_string (get payload "uploadType") "multipart"
  then Some IsMultipartStartPlan
  else if has_keys payload ["uploadType"; "fileName"; "result"]
          && is_string (get payload "uploadType") "multipart"
  then Some IsMultipartCompleteResult
  else if has_keys payload ["error"]
  then Some IsErrorResponse
  else None.

(** The status code that goes with a shape: 200 with a plan or a result. *)
Definition status_fits (status : Z) (sh : Shape) : bool :=
  match sh with
  | IsErrorResponse => (status =? 400) || (status =? 500)
  | _ => status =? 200
  end.

Definition resolved (entry : Call * Settled) : Prop :=
  exists v, snd entry = Resolve v.

(** A call that resolved with something a destructuring pattern accepts. *)
Definition answered (entry : Call * Settled) : bool :=
  match snd entry with
  | Resolve JUndefined | Resolve JNull | Reject _ => false
  | Resolve _ => true
  end.

Definition partNumber_of (entry : JSValue) : JSValue := get entry "partNumber".

Definition is_abort (c : Call) : bool :=
  match c with
  | Send (AbortMultipartUploadCommand _ _ _)
  | GetSignedUrl (AbortMultipartUploadCommand _ _ _) _ => true
  | _ => false
  end.

(** ** Collaborator doubles and sample requests for the closed examples *)

Module Sample.

(** A collaborator on which every call succeeds. *)
Definition s3_up : Backend :=
  fun _ c =>
    match c with
    | GetSignedUrl _ _ => Resolve (JStr "https://s3.example/signed")
    | Send (CreateMultipartUploadCommand _ _ _) =>
        Resolve (JObj [("UploadId", JStr "session-1")])
    | Send _ => Resolve (JObj [("Location", JStr "https://s3.example/object")])
    end.

Definition AccessDenied : JSError := mkError "AccessDenied" "Access Denied".

(** A collaborator that opens the session and signs the first part, then
    refuses. *)
Definition s3_flaky : Backend :=
  fun t c => if (length t <? 2)%nat then s3_up t c else Reject AccessDenied.

Definition request (props : list (string * JSValue)) : Event :=
  {| event_body := Some (Encodes (JObj props)) |}.

Definition one_part : JSValue :=
  JArr [JObj [("partNumber", JInt 1); ("eTag", JStr "etag-1")]].

(** 1 MiB, 12 MiB. *)
Definition small : list (string * JSValue) :=
  [("fileName", JStr "a.bin"); ("contentType", JStr "application/octet-stream");
   ("fileSize", JInt 1048576)].

Definition large : list (string * JSValue) :=
  [("fileName", JStr "a.bin"); ("contentType", JStr "application/octet-stream");
   ("fileSize", JInt 12582912)].

(** An empty file: [fileSize] is 0. *)
Definition empty : list (string * JSValue) :=
  [("fileName", JStr "a.bin"); ("contentType", JStr "application/octet-stream");
   ("fileSize", JInt 0)].

Definition completion : list (string * JSValue) :=
  [("uploadId", JStr "session-1"); ("complete", JBool true);
   ("parts", one_part)].

(** The sample requests carry [fileSize] as a number, so the two coercions
    are never consulted; they answer as for a plain object. *)
Definition runtime (s3 : Backend) : Runtime :=
  {| BUCKET := JStr "buildlink-uploads";
     StringToNumber := fun _ => NaN;
     ObjectToPrimitive := fun _ => Normal "[object Object]";
     s3Client := s3 |}.

Definition run (s3 : Backend) (event : Event) : Completion Response * Trace :=
  @invoke (runtime s3) event.

End Sample.

(** ** Reading calls and outcomes *)

Definition command_of (c : Call) : Command :=
  match c with
  | GetSignedUrl cmd _ => cmd
  | Send cmd => cmd
  end.

(** The [Bucket] and the [Key] a command is built with. *)
Definition bucket_of (cmd : Command) : JSValue :=
  match cmd with
  | PutObjectCommand b _ _
  | CreateMultipartUploadCommand b _ _
  | UploadPartCommand b _ _ _
  | CompleteMultipartUploadCommand b _ _ _
  | AbortMultipartUploadCommand b _ _ => b
  end.

Definition key_of (cmd : Command) : JSValue :=
  match cmd with
  | PutObjectCommand _ k _
  | CreateMultipartUploadCommand _ k _
  | UploadPartCommand _ k _ _
  | CompleteMultipartUploadCommand _ k _ _
  | AbortMultipartUploadCommand _ k _ => k
  end.

(** The signing call of part [p] of a session. *)
Definition sign_part {rt : Runtime} (fileName UploadId : JSValue) (p : Z)
    : Call :=
  GetSignedUrl (UploadPartCommand BUCKET fileName UploadId p) 3600.

(** ** A runtime whose coercions are consulted *)

Module Edge.

(** The one string the examples convert is ["huge"], which is no numeric
    literal: StringToNumber gives [NaN]. *)
Definition not_a_number (s : string) : JSNumber := NaN.

(** ToPrimitive on the objects of the examples: an own property [toString]
    from JSON is not callable and hides [Object.prototype.toString], and the
    inherited [valueOf] returns the object itself, so the conversion throws;
    a plain object gives ["[object Object]"]. *)
Definition to_primitive (v : JSValue) : Completion string :=
  match get v "toString" with
  | JUndefined => Normal "[object Object]"
  | _ =>
      Abrupt (mkError "TypeError" "Cannot convert object to primitive value")
  end.

Definition runtime (s3 : Backend) : Runtime :=
  {| BUCKET := JStr "buildlink-uploads";
     StringToNumber := not_a_number;
     ObjectToPrimitive := to_primitive;
     s3Client := s3 |}.

(** [fileSize: "huge"]. *)
Definition huge : list (string * JSValue) :=
  [("fileName", JStr "a.bin"); ("contentType", JStr "application/octet-stream");
   ("fileSize", JStr "huge")].

(** [fileSize: { "toString": 1 }]. *)
Definition shadowed : list (string * JSValue) :=
  [("fileName", JStr "a.bin"); ("contentType", JStr "application/octet-stream");
   ("fileSize", JObj [("toString", JInt 1)])].

Definition run (s3 : Backend) (event : Event) : Completion Response * Trace :=
  @invoke (runtime s3) event.

End Edge.

(** * Properties *)

(** ** Numbers and the loop bound *)

Lemma inject_Z_leb_floor (p : Z) (t : Q) :
  Qle_bool (inject_Z p) t = true <-> p <= Qfloor t.
Proof.
  rewrite Qle_bool_iff. split; intro H.
  - apply Qfloor_resp_le in H. now rewrite Qfloor_Z in H.
  - apply Qle_trans with (inject_Z (Qfloor t)).
    + now rewrite <- Zle_Qle.
    + apply Qfloor_le.
Qed.

Lemma iterations_S (tp : JSNumber) (p : Z) (n : nat) :
  iterations tp p = S n ->
  num_leb (Fin (inject_Z p)) tp = true /\ iterations tp (p + 1) = n.
Proof.
  destruct tp as [|t]; simpl; [discriminate|]. intro H. split.
  - apply inject_Z_leb_floor. lia.
  - lia.
Qed.

Lemma iterations_O (tp : JSNumber) (p : Z) :
  iterations tp p = O -> num_leb (Fin (inject_Z p)) tp = false.
Proof.
  destruct tp as [|t]; simpl; [reflexivity|]. intro H.
  destruct (Qle_bool (inject_Z p) t) eqn:E; [|reflexivity].
  apply inject_Z_leb_floor in E. lia.
Qed.

Lemma zrange_length (start : Z) (n : nat) : length (zrange start n) = n.
Proof. revert start. induction n; simpl; intros; [reflexivity|now rewrite IHn]. Qed.

Lemma zrange_In (start : Z) (n : nat) (z : Z) :
  In z (zrange start n) <-> start <= z < start + Z.of_nat n.
Proof.
  revert start. induction n as [|n IH]; intro start; simpl.
  - lia.
  - rewrite IH. lia.
Qed.

(** ** The loop over part numbers *)

Section Loop.

Context {rt : Runtime}.

(** The model's loop obeys the unfolding of the source's [for] loop: the
    bound [iterations] runs out exactly when the loop condition fails. *)
Lemma forParts_unfold (fileName UploadId : JSValue) (tp : JSNumber) (p : Z)
    (urls : list JSValue) :
  forParts (iterations tp p) fileName UploadId tp p urls =
  if num_leb (Fin (inject_Z p)) tp then
    (url <- await
              (GetSignedUrl (UploadPartCommand BUCKET fileName UploadId p) 3600) ;;
     forParts (iterations tp (p + 1)) fileName UploadId tp (p + 1)
       (urls ++ [part_entry (p, url)])%list)
  else ret urls.
Proof.
  destruct (iterations tp p) as [|n] eqn:E.
  - now rewrite (iterations_O _ _ E).
  - destruct (iterations_S _ _ _ E) as [Hc Hn]. cbn [forParts].
    now rewrite Hc, Hn.
Qed.

(** Every run of the loop: either each part number from [p] on was signed
    and pushed in order, or the signing of one of them was refused and the
    loop ended there with that error. *)
Lemma forParts_run (n : nat) (fileName UploadId : JSValue) (tp : JSNumber) :
  forall (p : Z) (urls : list JSValue) (t : Trace),
    iterations tp p = n ->
    (exists signed,
        length signed = n /\
        forParts n fileName UploadId tp p urls t =
        (Normal (urls ++ map part_entry (combine (zrange p n) signed))%list,
         (t ++ map (part_call fileName UploadId)
                (combine (zrange p n) signed))%list))
    \/
    (exists signed e,
        (length signed < n)%nat /\
        forParts n fileName UploadId tp p urls t =
        (Abrupt e,
         (t ++ map (part_call fileName UploadId)
                (combine (zrange p (length signed)) signed)
            ++ [(GetSignedUrl
                   (UploadPartCommand BUCKET fileName UploadId
                      (p + Z.of_nat (length signed))) 3600,
                 Reject e)])%list)).
Proof.
  induction n as [|n IH]; intros p urls t Hn.
  - left. exists []. split; [reflexivity|].
    simpl. unfold ret. now rewrite !app_nil_r.
  - destruct (iterations_S _ _ _ Hn) as [Hc Hn'].
    cbn [forParts]. rewrite Hc. unfold bind, await.
    set (call := GetSignedUrl (UploadPartCommand BUCKET fileName UploadId p) 3600).
    destruct (s3Client t call) as [url|e] eqn:Hs; cbn [settle].
    + destruct (IH (p + 1) (urls ++ [part_entry (p, url)])%list
                  (t ++ [(call, Resolve url)])%list Hn')
        as [(signed & Hlen & Heq)|(signed & e & Hlen & Heq)].
      * left. exists (url :: signed). split; [simpl; lia|].
        unfold part_entry in Heq at 1. cbn [fst snd] in Heq.
        rewrite Heq. cbn [zrange combine map]. now rewrite <- !app_assoc.
      * right. exists (url :: signed), e. split; [simpl; lia|].
        unfold part_entry in Heq at 1. cbn [fst snd] in Heq.
        rewrite Heq. cbn [length zrange combine map].
        replace (p + 1 + Z.of_nat (length signed))
          with (p + Z.of_nat (S (length signed))) by lia.
        now rewrite <- !app_assoc.
    + right. exists [], e. split; [simpl; lia|].
      cbn [length zrange combine map]. now rewrite Z.add_0_r.
Qed.

End Loop.

(** ** Every invocation is one of the runs *)

Lemma destructure_Normal (first what : string) (v v' : JSValue) :
  destructure first what v = Normal v' -> v' = v.
Proof. destruct v; simpl; congruence. Qed.

Section Runs.

Context {rt : Runtime}.

Lemma chooseUploadType_cases (fileSize : JSValue) :
  chooseUploadType fileSize = Normal "single"
  \/ (chooseUploadType fileSize = Normal "multipart"
      /\ exists size, ToNumber fileSize = Normal size)
  \/ exists e, chooseUploadType fileSize = Abrupt e.
Proof.
  unfold chooseUploadType.
  destruct (negb (truthy fileSize)); [now left|].
  destruct (ToNumber fileSize) as [size|e]; cbn [and_then].
  - destruct (num_leb size LIMIT); [now left|right; left; eauto].
  - right; right; eauto.
Qed.

Lemma invoke_malformed (event : Event) (e : JSError) :
  parse_body event = Abrupt e ->
  invoke event =
  (Normal (formatResponse 400 (error_body "Invalid JSON body")), []).
Proof.
  intro H. unfold invoke, handler. now rewrite H.
Qed.

Lemma invoke_runs_as (event : Event) (parsed : JSValue) :
  parse_body event = Normal parsed ->
  runs_as parsed (invoke event).
Proof.
  intro Hp. unfold invoke, handler. rewrite Hp.
  unfold bind at 1. unfold lift.
  destruct (destructure "fileName" "body" parsed) as [parsed'|e] eqn:Hd;
    [|now apply Run_nullish].
  pose proof (destructure_Normal _ _ _ _ Hd). subst parsed'. rename Hd into Hb.
  destruct (required_present parsed) eqn:Hv'; pose proof Hv' as Hv;
    unfold required_present in Hv.
  2:{ replace (negb (truthy (get parsed "fileName"))
               || negb (truthy (get parsed "contentType"))
               || negb (truthy (get parsed "fileSize"))) with true.
      - now apply Run_missing.
      - destruct (truthy (get parsed "fileName")),
          (truthy (get parsed "contentType")),
          (truthy (get parsed "fileSize")); simpl in *; congruence. }
  apply andb_prop in Hv as [Hv Hfs]. apply andb_prop in Hv as [Hfn Hct].
  rewrite Hfn, Hct, Hfs. cbn [negb orb].
  unfold try_catch, negotiate. unfold bind at 1. unfold lift at 1.
  destruct (chooseUploadType_cases (get parsed "fileSize"))
    as [Hty|[(Hty & size & Hsize)|(e & Hty)]];
    rewrite Hty; cbn [String.eqb Ascii.eqb Bool.eqb].
  3:{ unfold ret. now apply Run_unconvertible. }
  - (* single *)
    unfold getPresignedUrl, bind, await, ret. cbn [app].
    set (call := GetSignedUrl _ 900).
    destruct (s3Client [] call) as [url|e] eqn:Hs; cbn [settle].
    + exact (Run_single parsed (Resolve url) Hv' Hty).
    + exact (Run_single parsed (Reject e) Hv' Hty).
  - (* multipart *)
    destruct (truthy (get parsed "uploadId")) eqn:Hid; cbn [negb andb].
    + destruct (truthy (get parsed "complete") && truthy (get parsed "parts"))
        eqn:Hcp.
      * unfold completeMultipart, bind, await, ret. cbn [app].
        set (call := Send _).
        assert (Hall : truthy (get parsed "uploadId")
                       && truthy (get parsed "complete")
                       && truthy (get parsed "parts") = true).
        { rewrite Hid. exact Hcp. }
        destruct (s3Client [] call) as [result|e] eqn:Hs; cbn [settle].
        -- exact (Run_complete parsed (Resolve result) Hv' Hty Hall).
        -- exact (Run_complete parsed (Reject e) Hv' Hty Hall).
      * unfold ret. now apply Run_incomplete.
    + unfold startMultipart. unfold bind at 1. unfold bind at 1.
      unfold lift at 1. rewrite Hsize. unfold bind at 1.
      unfold await at 1. cbn [app].
      set (create := Send _).
      destruct (s3Client [] create) as [output|e] eqn:Hs; cbn [settle].
      2:{ unfold ret. now apply Run_start_refused. }
      unfold bind at 1. unfold lift.
      destruct (destructure "UploadId" "(intermediate value)" output)
        as [output'|e] eqn:Hd.
      2:{ unfold ret. now apply Run_start_no_output. }
      apply destructure_Normal in Hd. subst output'.
      set (tp := Math_ceil _).
      unfold bind.
      destruct (forParts_run (iterations tp 1)
                  (get parsed "fileName") (get output "UploadId") tp 1 []
                  [(create, Resolve output)] eq_refl)
        as [(signed & Hlen & Heq)|(signed & e & Hlen & Heq)];
        rewrite Heq; unfold ret.
      * exact (Run_start parsed size output signed Hv' Hty Hid Hsize Hlen).
      * exact (Run_start_unsigned parsed size output signed e Hv' Hty Hid
                 Hsize Hlen).
Qed.

Lemma invoke_Run (event : Event) (parsed : JSValue) :
  parse_body event = Normal parsed ->
  Run parsed (fst (invoke event)) (snd (invoke event)).
Proof. exact (invoke_runs_as event parsed). Qed.

End Runs.

(** ** Classification by size *)

Section Classification.

Context {rt : Runtime}.

Lemma SINGLE_UPLOAD_LIMIT_pos : (0 < inject_Z SINGLE_UPLOAD_LIMIT)%Q.
Proof. reflexivity. Qed.

(** A value above the limit is truthy: it passes the [!fileSize] tests. *)
Lemma above_limit_truthy (v : JSValue) : above_limit v -> truthy v = true.
Proof.
  intros (q & Hq & Hlt).
  assert (H0 : forall x, Normal (Fin x) = Normal (Fin q) -> (x <= 1)%Q -> False).
  { intros x [= ->] Hx. apply (Qlt_irrefl q).
    apply Qle_lt_trans with (1 := Hx).
    apply Qlt_trans with (2 := Hlt). reflexivity. }
  destruct v as [| |b|[|x]|s|items|props]; cbn in Hq |- *;
    try discriminate; try reflexivity.
  - exfalso. apply (H0 _ Hq). discriminate.
  - destruct b; [reflexivity|]. exfalso. apply (H0 _ Hq). discriminate.
  - injection Hq as ->. destruct (Qeq_bool q 0) eqn:E; [|reflexivity].
    apply Qeq_bool_eq in E. rewrite E in Hlt. discriminate.
  - unfold string_to_number in Hq.
    destruct (String.eqb s ""); [|reflexivity].
    exfalso. apply (H0 _ Hq). discriminate.
Qed.

Lemma chooseUploadType_falsy (v : JSValue) :
  truthy v = false -> chooseUploadType v = Normal "single".
Proof. intro H. unfold chooseUploadType. now rewrite H. Qed.

Lemma chooseUploadType_at_most (v : JSValue) :
  at_most_limit v -> chooseUploadType v = Normal "single".
Proof.
  intros (q & Hq & Hle). unfold chooseUploadType.
  destruct (negb (truthy v)); [reflexivity|].
  rewrite Hq. cbn [and_then LIMIT num_leb].
  apply Qle_bool_iff in Hle. now rewrite Hle.
Qed.

Lemma chooseUploadType_above (v : JSValue) :
  above_limit v -> chooseUploadType v = Normal "multipart".
Proof.
  intro H. unfold chooseUploadType.
  rewrite (above_limit_truthy v H). cbn [negb].
  destruct H as (q & Hq & Hlt). rewrite Hq. cbn [and_then LIMIT num_leb].
  destruct (Qle_bool q (inject_Z SINGLE_UPLOAD_LIMIT)) eqn:E; [|reflexivity].
  apply Qle_bool_iff in E. exfalso. exact (Qlt_not_le _ _ Hlt E).
Qed.

(** C1. Classification is a function of [fileSize] alone, against the limit
    of 5 MiB = 5,242,880 bytes: an absent [fileSize], a zero one and one
    that is at most the limit are classified "single"; one strictly above
    the limit is classified "multipart". *)
Theorem chooseUploadType_by_size :
  SINGLE_UPLOAD_LIMIT = 5242880
  /\ chooseUploadType JUndefined = Normal "single"
  /\ (forall q, (q == 0)%Q ->
                chooseUploadType (JNum (Fin q)) = Normal "single")
  /\ (forall fileSize, at_most_limit fileSize ->
                       chooseUploadType fileSize = Normal "single")
  /\ (forall fileSize, above_limit fileSize ->
                       chooseUploadType fileSize = Normal "multipart").
Proof.
  split; [reflexivity|]. split; [reflexivity|]. split; [|split].
  - intros q Hq. apply chooseUploadType_falsy. cbn.
    apply Qeq_bool_iff in Hq. now rewrite Hq.
  - exact chooseUploadType_at_most.
  - exact chooseUploadType_above.
Qed.

End Classification.

(** The limit, one byte below it and one byte above it. *)
Lemma chooseUploadType_by_size_witness :
  @chooseUploadType (Sample.runtime Sample.s3_up) (JInt 0) = Normal "single"
  /\ @chooseUploadType (Sample.runtime Sample.s3_up) (JInt 5242880)
     = Normal "single"
  /\ @chooseUploadType (Sample.runtime Sample.s3_up) (JInt 5242881)
     = Normal "multipart".
Proof.
  destruct (@chooseUploadType_by_size (Sample.runtime Sample.s3_up))
    as (_ & _ & Hzero & Hle & Hgt).
  split; [|split].
  - apply Hzero. reflexivity.
  - apply Hle. exists (inject_Z 5242880). split; [reflexivity|]. discriminate.
  - apply Hgt. exists (inject_Z 5242881). split; reflexivity.
Defined.

(** ** Starting a multipart upload *)

Lemma map_fst_combine {A B : Type} (l : list A) (l' : list B) :
  length l = length l' -> map fst (combine l l') = l.
Proof.
  revert l'. induction l as [|a l IH]; intros [|b l'] H; simpl in *;
    try reflexivity; try discriminate.
  f_equal. apply IH. lia.
Qed.

Lemma partNumber_of_entries (numbers : list Z) (signed : list JSValue) :
  length signed = length numbers ->
  map partNumber_of (map part_entry (combine numbers signed)) = map JInt numbers.
Proof.
  intro H. rewrite map_map.
  rewrite <- (map_fst_combine numbers signed) at 2 by now symmetry.
  rewrite map_map. apply map_ext. now intros [p url].
Qed.

(** Cases of [Run] that contradict what is known about the request. *)
Ltac absurd_run :=
  solve
    [ congruence
    | match goal with
      | H : destructure _ _ ?p = Abrupt _ |- _ =>
          destruct p; cbn in *; discriminate
      end
    | unfold required_present in *;
      match goal with
      | H : _ && _ = _ |- _ =>
          repeat match goal with
                 | E : truthy _ = _ |- _ => rewrite E in H
                 end;
          discriminate
      end ].

Section Start.

Context {rt : Runtime}.

(** The number of parts is the ceiling of the size over the limit. *)
Lemma totalParts_ceiling (q : Q) :
  Math_ceil (num_div (Fin q) LIMIT)
  = Fin (inject_Z (Qceiling (q / inject_Z SINGLE_UPLOAD_LIMIT))).
Proof. reflexivity. Qed.

(** That ceiling is the least number of parts of at most the limit each
    that cover the size. *)
Lemma totalParts_covers (q : Q) :
  let totalParts := Qceiling (q / inject_Z SINGLE_UPLOAD_LIMIT) in
  (inject_Z (totalParts - 1) * inject_Z SINGLE_UPLOAD_LIMIT < q)%Q
  /\ (q <= inject_Z totalParts * inject_Z SINGLE_UPLOAD_LIMIT)%Q.
Proof.
  intro totalParts.
  assert (Hpos : (0 < inject_Z SINGLE_UPLOAD_LIMIT)%Q) by reflexivity.
  assert (Hq : (q / inject_Z SINGLE_UPLOAD_LIMIT * inject_Z SINGLE_UPLOAD_LIMIT
                == q)%Q).
  { rewrite Qmult_comm. apply Qmult_div_r. discriminate. }
  split.
  - rewrite <- Hq at 1. apply Qmult_lt_r; [exact Hpos|]. apply Qceiling_lt.
  - rewrite <- Hq at 1. apply Qmult_le_r; [exact Hpos|]. apply Qle_ceiling.
Qed.

(** C2. On a multipart-start request ([fileSize] above the limit, no
    [uploadId]) the plan that is returned has [totalParts] equal to
    ceil(fileSize / LIMIT), and [urls] has exactly [totalParts] entries,
    whose [partNumber]s are 1, 2, ..., [totalParts] in this order.  The
    only other outcome is a 500, and the plan is what comes back whenever
    every call of the run was answered. *)
Theorem startMultipart_plan (event : Event) (parsed : JSValue) (q : Q) :
  parse_body event = Normal parsed ->
  truthy (get parsed "fileName") = true ->
  truthy (get parsed "contentType") = true ->
  ToNumber (get parsed "fileSize") = Normal (Fin q) ->
  (inject_Z SINGLE_UPLOAD_LIMIT < q)%Q ->
  truthy (get parsed "uploadId") = false ->
  let totalParts := Qceiling (q / inject_Z SINGLE_UPLOAD_LIMIT) in
  let planned :=
    exists uploadId urls,
      fst (invoke event)
      = Normal (formatResponse 200
                  (MultipartStartPlan (get parsed "fileName")
                     (get parsed "contentType") uploadId
                     (Fin (inject_Z totalParts)) urls))
      /\ length urls = Z.to_nat totalParts
      /\ map partNumber_of urls = map JInt (zrange 1 (Z.to_nat totalParts)) in
  (planned
   \/ exists text,
       fst (invoke event) = Normal (formatResponse 500 (error_body text)))
  /\ (forallb answered (snd (invoke event)) = true -> planned).
Proof.
  intros Hp Hfn Hct Hq Hlt Hid totalParts planned.
  set (total := Qceiling (q / inject_Z SINGLE_UPLOAD_LIMIT)) in *.
  assert (Habove : above_limit (get parsed "fileSize")) by (exists q; auto).
  pose proof (above_limit_truthy _ Habove) as Hfs.
  pose proof (chooseUploadType_above _ Habove) as Hty.
  pose proof (invoke_Run event parsed Hp) as HR.
  assert (Hplan : forall output signed,
    let tp := Math_ceil (num_div (Fin q) LIMIT) in
    length signed = iterations tp 1 ->
    fst (invoke event)
    = Normal (formatResponse 200
                (MultipartStartPlan (get parsed "fileName")
                   (get parsed "contentType") (get output "UploadId") tp
                   (map part_entry
                      (combine (zrange 1 (iterations tp 1)) signed)))) ->
    planned).
  { intros output signed tp Hlen Hout. subst tp.
    rewrite (totalParts_ceiling q) in *.
    fold total in Hlen, Hout.
    assert (Hn : iterations (Fin (inject_Z total)) 1 = Z.to_nat total).
    { unfold iterations. rewrite Qfloor_Z. f_equal. lia. }
    rewrite Hn in *.
    exists (get output "UploadId"), (map part_entry
      (combine (zrange 1 (Z.to_nat total)) signed)).
    split; [exact Hout|]. split.
    - rewrite length_map, length_combine, zrange_length. lia.
    - apply partNumber_of_entries. now rewrite zrange_length. }
  destruct (invoke event) as [out tr]. cbn [fst snd] in *.
  inversion HR; subst; try absurd_run;
    try match goal with
        | H : ToNumber _ = Normal ?size |- _ =>
            is_var size; rewrite Hq in H; injection H as <-
        end.
  - (* the session could not be opened *)
    split; [right; eauto|]. cbn. discriminate.
  - (* the session came back without an output object *)
    split; [right; eauto|].
    match goal with
    | H : destructure _ _ ?o = Abrupt _ |- _ =>
        destruct o; cbn in H |- *; discriminate
    end.
  - (* every part was signed *)
    split; [left|intros _]; eapply Hplan; eauto.
  - (* the signing of a part was refused *)
    split; [right; eauto|].
    cbn [forallb]. rewrite forallb_app. cbn.
    rewrite !andb_false_r. discriminate.
Qed.

End Start.

(** 12 MiB in parts of 5 MiB: three parts. *)
Lemma startMultipart_plan_witness :
  exists uploadId urls,
    fst (Sample.run Sample.s3_up (Sample.request Sample.large))
    = Normal (formatResponse 200
                (MultipartStartPlan (JStr "a.bin")
                   (JStr "application/octet-stream") uploadId
                   (Fin (inject_Z 3)) urls))
    /\ length urls = 3%nat
    /\ map partNumber_of urls = [JInt 1; JInt 2; JInt 3].
Proof.
  apply (@startMultipart_plan (Sample.runtime Sample.s3_up)
           (Sample.request Sample.large) (JObj Sample.large)
           (inject_Z 12582912));
    reflexivity.
Defined.

(** ** Requests answered without the collaborator, and the one-call paths *)

Section Paths.

Context {rt : Runtime}.

(** C7. A body that [JSON.parse] rejects is answered with status 400 and
    the error "Invalid JSON body": no field is looked at, and the
    collaborator is not called. *)
Theorem malformed_body_400 (event : Event) (text : BodyText) (e : JSError) :
  event_body event = Some text ->
  JSON_parse text = Abrupt e ->
  invoke event
  = (Normal (formatResponse 400 (JObj [("error", JStr "Invalid JSON body")])),
     []).
Proof.
  intros Hbody Hparse. apply invoke_malformed with e.
  unfold parse_body. rewrite Hbody. exact Hparse.
Qed.

(** A missing (falsy) [fileName], [contentType] or [fileSize] in a body
    that is not [null] is answered with status 400 before any phase logic,
    without a collaborator call, whatever the other fields are. *)
Lemma missing_fields_400 (event : Event) (parsed : JSValue) :
  parse_body event = Normal parsed ->
  parsed <> JNull -> parsed <> JUndefined ->
  truthy (get parsed "fileName") = false
  \/ truthy (get parsed "contentType") = false
  \/ truthy (get parsed "fileSize") = false ->
  invoke event
  = (Normal (formatResponse 400
               (error_body "Missing 'fileName', 'contentType' or 'fileSize'")),
     []).
Proof.
  intros Hp Hnull Hundef Hmiss.
  pose proof (invoke_Run event parsed Hp) as HR.
  destruct (invoke event) as [out tr]. cbn [fst snd] in HR.
  assert (Hv : required_present parsed = false).
  { unfold required_present.
    destruct Hmiss as [H|[H|H]]; rewrite H;
      now rewrite ?andb_false_r, ?andb_false_l. }
  inversion HR; subst; try congruence; try reflexivity.
  destruct parsed; cbn in *; congruence.
Qed.

(** C4, at the body [null].  The body parses, none of the three required
    fields is there, and the handler answers with no response at all: the
    destructuring of [body] throws outside both [try] blocks. *)
Theorem missing_fields_null_body :
  parse_body {| event_body := Some (Encodes JNull) |} = Normal JNull
  /\ get JNull "fileName" = JUndefined
  /\ get JNull "contentType" = JUndefined
  /\ get JNull "fileSize" = JUndefined
  /\ invoke {| event_body := Some (Encodes JNull) |}
     = (Abrupt
          (mkError "TypeError"
             "Cannot destructure property 'fileName' of 'body' as it is null."),
        []).
Proof. repeat split. Qed.

(** C3. On a multipart-complete request the one call made is
    [send(CompleteMultipartUploadCommand)], and its [Parts] is the [parts]
    value of the request as it was received. *)
Theorem completeMultipart_parts_unchanged (event : Event) (parsed : JSValue) :
  parse_body event = Normal parsed ->
  truthy (get parsed "fileName") = true ->
  truthy (get parsed "contentType") = true ->
  above_limit (get parsed "fileSize") ->
  truthy (get parsed "uploadId") = true ->
  truthy (get parsed "complete") = true ->
  truthy (get parsed "parts") = true ->
  exists settled,
    snd (invoke event)
    = [(Send (CompleteMultipartUploadCommand BUCKET (get parsed "fileName")
                (get parsed "uploadId") (get parsed "parts")), settled)].
Proof.
  intros Hp Hfn Hct Habove Hid Hc Hparts.
  pose proof (above_limit_truthy _ Habove) as Hfs.
  pose proof (chooseUploadType_above _ Habove) as Hty.
  pose proof (invoke_Run event parsed Hp) as HR.
  destruct (invoke event) as [out tr]. cbn [fst snd] in *.
  inversion HR; subst; try absurd_run.
  eauto.
Qed.

(** C6, as the code has it.  On a multipart-phase request with an
    [uploadId] but without [complete] or without [parts], the answer is
    status 400 with the handler's own message, and the collaborator is not
    called. *)
Theorem incomplete_multipart_400 (event : Event) (parsed : JSValue) :
  parse_body event = Normal parsed ->
  truthy (get parsed "fileName") = true ->
  truthy (get parsed "contentType") = true ->
  above_limit (get parsed "fileSize") ->
  truthy (get parsed "uploadId") = true ->
  truthy (get parsed "complete") = false
  \/ truthy (get parsed "parts") = false ->
  invoke event
  = (Normal
       (formatResponse 400
          (error_body
             "Invalid multipart request. Make sure to provide 'uploadId', 'complete', and 'parts' when completing multipart upload.")),
     []).
Proof.
  intros Hp Hfn Hct Habove Hid Hcp.
  pose proof (above_limit_truthy _ Habove) as Hfs.
  pose proof (chooseUploadType_above _ Habove) as Hty.
  pose proof (invoke_Run event parsed Hp) as HR.
  destruct (invoke event) as [out tr]. cbn [fst snd] in *.
  inversion HR; subst; try absurd_run.
  - exfalso. rewrite Hid in *. cbn [andb] in *.
    match goal with H : _ && _ = true |- _ => apply andb_prop in H end.
    destruct Hcp; intuition congruence.
  - reflexivity.
Qed.

(** C10, as the code has it.  A request with [fileName] and [contentType],
    whose [fileSize] is not zero and at most the limit, and which carries
    [uploadId], [complete = true] and [parts], is handled as a single
    upload.  Whether the signing succeeds or not, the one call of the
    invocation is the signing of a PUT for 900 seconds, and nothing is sent:
    no completion occurs.  When the signing resolves the answer is a
    SingleUploadPlan with status 200 in which [uploadId], [complete] and
    [parts] play no part; when it is refused the answer is the 500 of the
    refusal.  And on any request, a completion is sent only when [fileSize]
    is not at most the limit, which for a [fileSize] that converts to a
    number means greater than the limit. *)
Theorem small_file_ignores_completion (event : Event) (parsed : JSValue) :
  parse_body event = Normal parsed ->
  (truthy (get parsed "fileName") = true ->
   truthy (get parsed "contentType") = true ->
   truthy (get parsed "fileSize") = true ->
   at_most_limit (get parsed "fileSize") ->
   truthy (get parsed "uploadId") = true ->
   get parsed "complete" = JBool true ->
   truthy (get parsed "parts") = true ->
   chooseUploadType (get parsed "fileSize") = Normal "single"
   /\ invoke event
      = (Normal
           match
             s3Client []
               (GetSignedUrl
                  (PutObjectCommand BUCKET (get parsed "fileName")
                     (get parsed "contentType")) 900)
           with
           | Resolve url =>
               formatResponse 200
                 (SingleUploadPlan (get parsed "fileName")
                    (get parsed "contentType") url)
           | Reject e =>
               formatResponse 500 (JObj [("error", JStr (message e))])
           end,
         [(GetSignedUrl
             (PutObjectCommand BUCKET (get parsed "fileName")
                (get parsed "contentType")) 900,
           s3Client []
             (GetSignedUrl
                (PutObjectCommand BUCKET (get parsed "fileName")
                   (get parsed "contentType")) 900))])
   /\ (forall cmd settled, ~ In (Send cmd, settled) (snd (invoke event))))
  /\ (forall bucket key uploadId parts settled,
         In (Send (CompleteMultipartUploadCommand bucket key uploadId parts),
             settled)
            (snd (invoke event)) ->
         ~ at_most_limit (get parsed "fileSize")
         /\ (forall q,
                ToNumber (get parsed "fileSize") = Normal (Fin q) ->
                (inject_Z SINGLE_UPLOAD_LIMIT < q)%Q)).
Proof.
  intro Hp. split.
  - intros Hfn Hct Hfs Hle Hid Hc Hparts.
    pose proof (chooseUploadType_at_most _ Hle) as Hty.
    set (sign :=
           GetSignedUrl
             (PutObjectCommand BUCKET (get parsed "fileName")
                (get parsed "contentType")) 900).
    assert (Hinv :
      invoke event
      = (Normal
           match s3Client [] sign with
           | Resolve url =>
               formatResponse 200
                 (SingleUploadPlan (get parsed "fileName")
                    (get parsed "contentType") url)
           | Reject e =>
               formatResponse 500 (JObj [("error", JStr (message e))])
           end,
         [(sign, s3Client [] sign)])).
    { unfold invoke, handler. rewrite Hp.
      assert (Hd : destructure "fileName" "body" parsed = Normal parsed).
      { destruct parsed; cbn in *; congruence. }
      unfold bind at 1. unfold lift. rewrite Hd, Hfn, Hct, Hfs.
      cbn [negb orb].
      unfold try_catch, negotiate. unfold bind at 1. unfold lift at 1.
      rewrite Hty. cbn [String.eqb Ascii.eqb Bool.eqb].
      unfold getPresignedUrl, bind, await, ret. cbn [app]. fold sign.
      now destruct (s3Client [] sign). }
    split; [exact Hty|]. split; [exact Hinv|].
    intros cmd settled. rewrite Hinv. cbn [snd In].
    intros [[=]|[]].
  - intros bucket key uploadId parts settled Hin.
    assert (Hty : chooseUploadType (get parsed "fileSize")
                  = Normal "multipart").
    { pose proof (invoke_Run event parsed Hp) as HR.
      destruct (invoke event) as [out tr]. cbn [fst snd] in *.
      inversion HR; subst; cbn [In] in Hin; try contradiction;
        try (destruct Hin as [[=]|[]]; fail).
      - destruct Hin as [[=]|Hin].
        apply in_map_iff in Hin as (? & [=] & _).
      - destruct Hin as [[=]|Hin].
        apply in_app_or in Hin as [Hin|[[=]|[]]].
        apply in_map_iff in Hin as (? & [=] & _).
      - assumption. }
    assert (Hnot : ~ at_most_limit (get parsed "fileSize")).
    { intro Hle. rewrite (chooseUploadType_at_most _ Hle) in Hty.
      discriminate. }
    split; [exact Hnot|].
    intros q Hq. apply Qnot_le_lt. intro Hle. apply Hnot. now exists q.
Qed.

End Paths.

Lemma malformed_body_400_witness :
  Sample.run Sample.s3_up {| event_body := Some Malformed |}
  = (Normal (formatResponse 400 (JObj [("error", JStr "Invalid JSON body")])),
     []).
Proof.
  apply (@malformed_body_400 (Sample.runtime Sample.s3_up)
           {| event_body := Some Malformed |} Malformed
           (mkError "SyntaxError" "Unexpected token"));
    reflexivity.
Defined.

(** The body [{ parts: [...], uploadId, complete: true }] and 12 MiB. *)
Lemma completeMultipart_parts_unchanged_witness :
  exists settled,
    snd (Sample.run Sample.s3_up
           (Sample.request (Sample.large ++ Sample.completion)%list))
    = [(Send (CompleteMultipartUploadCommand (JStr "buildlink-uploads")
                (JStr "a.bin") (JStr "session-1") Sample.one_part), settled)].
Proof.
  apply (@completeMultipart_parts_unchanged (Sample.runtime Sample.s3_up)
           (Sample.request (Sample.large ++ Sample.completion)%list)
           (JObj (Sample.large ++ Sample.completion)%list));
    try reflexivity.
  exists (inject_Z 12582912). split; reflexivity.
Defined.

(** C6, the message.  12 MiB with an [uploadId] and nothing else: the answer
    is not a 400 carrying the text that the specification quotes. *)
Lemma incomplete_multipart_other_message :
  fst (Sample.run Sample.s3_up
         (Sample.request (Sample.large ++ [("uploadId", JStr "session-1")])%list))
  <> Normal (formatResponse 400
               (error_body "must provide uploadId, complete, and parts together")).
Proof. vm_compute. discriminate. Qed.

Lemma incomplete_multipart_400_witness :
  Sample.run Sample.s3_up
    (Sample.request (Sample.large ++ [("uploadId", JStr "session-1")])%list)
  = (Normal
       (formatResponse 400
          (error_body
             "Invalid multipart request. Make sure to provide 'uploadId', 'complete', and 'parts' when completing multipart upload.")),
     []).
Proof.
  apply (@incomplete_multipart_400 (Sample.runtime Sample.s3_up)
           (Sample.request (Sample.large ++ [("uploadId", JStr "session-1")])%list)
           (JObj (Sample.large ++ [("uploadId", JStr "session-1")])%list));
    try reflexivity.
  - exists (inject_Z 12582912). split; reflexivity.
  - left. reflexivity.
Defined.

(** C10, at a size of zero.  The request carries [uploadId], [complete =
    true] and [parts], its [fileSize] 0 is at most the limit, every call
    would succeed, and the answer is the 400 of a missing field. *)
Lemma empty_file_completion_400 :
  truthy (get (JObj (Sample.empty ++ Sample.completion)%list) "uploadId")
  = true
  /\ get (JObj (Sample.empty ++ Sample.completion)%list) "complete"
     = JBool true
  /\ truthy (get (JObj (Sample.empty ++ Sample.completion)%list) "parts")
     = true
  /\ @at_most_limit (Sample.runtime Sample.s3_up)
       (get (JObj (Sample.empty ++ Sample.completion)%list) "fileSize")
  /\ Sample.run Sample.s3_up
       (Sample.request (Sample.empty ++ Sample.completion)%list)
     = (Normal (formatResponse 400
                  (error_body "Missing 'fileName', 'contentType' or 'fileSize'")),
        []).
Proof.
  repeat split. exists (inject_Z 0). split; [reflexivity|discriminate].
Qed.

Lemma small_file_ignores_completion_witness :
  (Sample.run Sample.s3_up
     (Sample.request (Sample.small ++ Sample.completion)%list)
   = (Normal (formatResponse 200
                (SingleUploadPlan (JStr "a.bin")
                   (JStr "application/octet-stream")
                   (JStr "https://s3.example/signed"))),
      [(GetSignedUrl
          (PutObjectCommand (JStr "buildlink-uploads") (JStr "a.bin")
             (JStr "application/octet-stream")) 900,
        Resolve (JStr "https://s3.example/signed"))]))
  /\ (Sample.run (fun _ _ => Reject Sample.AccessDenied)
        (Sample.request (Sample.small ++ Sample.completion)%list)
      = (Normal (formatResponse 500 (JObj [("error", JStr "Access Denied")])),
         [(GetSignedUrl
             (PutObjectCommand (JStr "buildlink-uploads") (JStr "a.bin")
                (JStr "application/octet-stream")) 900,
           Reject Sample.AccessDenied)]))
  /\ (forall q,
        @ToNumber (Sample.runtime Sample.s3_up) (JInt 12582912)
        = Normal (Fin q) ->
        (inject_Z SINGLE_UPLOAD_LIMIT < q)%Q).
Proof.
  split; [|split].
  - apply (@small_file_ignores_completion (Sample.runtime Sample.s3_up)
             (Sample.request (Sample.small ++ Sample.completion)%list)
             (JObj (Sample.small ++ Sample.completion)%list));
      try reflexivity.
    exists (inject_Z 1048576). split; [reflexivity|discriminate].
  - apply (@small_file_ignores_completion
             (Sample.runtime (fun _ _ => Reject Sample.AccessDenied))
             (Sample.request (Sample.small ++ Sample.completion)%list)
             (JObj (Sample.small ++ Sample.completion)%list));
      try reflexivity.
    exists (inject_Z 1048576). split; [reflexivity|discriminate].
  - eapply (@small_file_ignores_completion (Sample.runtime Sample.s3_up)
              (Sample.request (Sample.large ++ Sample.completion)%list)
              (JObj (Sample.large ++ Sample.completion)%list)).
    + reflexivity.
    + vm_compute. left. reflexivity.
Defined.

(** ** Collaborator failures *)

Section Failures.

Context {rt : Runtime}.

Lemma part_calls_resolved (fileName UploadId : JSValue)
    (numbered : list (Z * JSValue)) :
  Forall resolved (map (part_call fileName UploadId) numbered).
Proof.
  apply Forall_forall. intros entry Hin.
  apply in_map_iff in Hin as (pu & <- & _). now exists (snd pu).
Qed.

Lemma part_calls_shape (fileName UploadId : JSValue)
    (numbered : list (Z * JSValue)) (c : Call) (s : Settled) :
  In (c, s) (map (part_call fileName UploadId) numbered) ->
  exists p url,
    In (p, url) numbered
    /\ c = GetSignedUrl (UploadPartCommand BUCKET fileName UploadId p) 3600
    /\ s = Resolve url.
Proof.
  intro Hin. apply in_map_iff in Hin as ([p url] & Heq & Hin).
  injection Heq as <- <-. now exists p, url.
Qed.

(** C5. When a collaborator call of an invocation is refused, the answer is
    status 500 with the refusal's message as the error text; the refused
    call is the last call of the invocation and every call before it had
    resolved, so nothing is tried again and nothing is cleaned up; and no
    invocation ever issues an abort of a multipart session. *)
Theorem backend_failure_500 (event : Event) (call : Call) (e : JSError) :
  In (call, Reject e) (snd (invoke event)) ->
  fst (invoke event)
  = Normal (formatResponse 500 (JObj [("error", JStr (message e))]))
  /\ (exists before,
         snd (invoke event) = (before ++ [(call, Reject e)])%list
         /\ Forall resolved before)
  /\ (forall c s, In (c, s) (snd (invoke event)) -> is_abort c = false).
Proof.
  destruct (parse_body event) as [parsed|e0] eqn:Hp.
  2:{ rewrite (invoke_malformed event e0 Hp). intros []. }
  pose proof (invoke_Run event parsed Hp) as HR.
  destruct (invoke event) as [out tr]. cbn [fst snd] in *.
  inversion HR; subst; cbn [In]; intro Hin.
  - contradiction.
  - contradiction.
  - contradiction.
  - destruct Hin as [[= <- ->]|[]]. split; [reflexivity|]. split.
    + exists []. split; [reflexivity|constructor].
    + intros c s [[= <- <-]|[]]. reflexivity.
  - destruct Hin as [[= <- <-]|[]]. split; [reflexivity|]. split.
    + exists []. split; [reflexivity|constructor].
    + intros c s [[= <- <-]|[]]. reflexivity.
  - destruct Hin as [[=]|[]].
  - destruct Hin as [[=]|Hin].
    apply part_calls_shape in Hin as (? & ? & _ & _ & [=]).
  - destruct Hin as [[=]|Hin].
    apply in_app_or in Hin as [Hin|[[= <- <-]|[]]].
    { apply part_calls_shape in Hin as (? & ? & _ & _ & [=]). }
    split; [reflexivity|]. split.
    + eexists (_ :: _). split; [reflexivity|].
      constructor; [now eexists|apply part_calls_resolved].
    + intros c s [[= <- <-]|Hin]; [reflexivity|].
      apply in_app_or in Hin as [Hin|[[= <- <-]|[]]]; [|reflexivity].
      now apply part_calls_shape in Hin as (? & ? & _ & -> & _).
  - destruct Hin as [[= <- ->]|[]]. split; [reflexivity|]. split.
    + exists []. split; [reflexivity|constructor].
    + intros c s [[= <- <-]|[]]. reflexivity.
  - contradiction.
Qed.

End Failures.

(** The session opens, part 1 is signed, the signing of part 2 is refused. *)
Lemma backend_failure_500_witness :
  fst (Sample.run Sample.s3_flaky (Sample.request Sample.large))
  = Normal (formatResponse 500 (JObj [("error", JStr "Access Denied")]))
  /\ exists before,
      snd (Sample.run Sample.s3_flaky (Sample.request Sample.large))
      = (before
         ++ [(GetSignedUrl
                (UploadPartCommand (JStr "buildlink-uploads") (JStr "a.bin")
                   (JStr "session-1") 2) 3600,
              Reject Sample.AccessDenied)])%list
      /\ Forall resolved before.
Proof.
  destruct (@backend_failure_500 (Sample.runtime Sample.s3_flaky)
              (Sample.request Sample.large)
              (GetSignedUrl
                 (UploadPartCommand (JStr "buildlink-uploads") (JStr "a.bin")
                    (JStr "session-1") 2) 3600)
              Sample.AccessDenied) as (Hout & Htrace & _).
  - vm_compute. right. right. left. reflexivity.
  - split; [exact Hout|exact Htrace].
Defined.

(** ** Validity of the signed URLs *)

Ltac payload_eq H :=
  unfold formatResponse, SingleUploadPlan, MultipartStartPlan,
    MultipartCompleteResult, error_body in H;
  try discriminate H.

Section Validity.

Context {rt : Runtime}.

(** C8. Every URL is signed for the validity of its kind: a PUT of the
    whole object for 900 seconds, a PUT of a part for 3600 seconds, and
    nothing else is ever signed.  The [url] of a SingleUploadPlan is what
    such a 900-second signing resolved with, and each entry of the [urls]
    of a MultipartStartPlan pairs a part number with what the 3600-second
    signing for that part resolved with. *)
Theorem signed_url_validity (event : Event) :
  (forall cmd expiresIn settled,
      In (GetSignedUrl cmd expiresIn, settled) (snd (invoke event)) ->
      match cmd with
      | PutObjectCommand _ _ _ => expiresIn = 900
      | UploadPartCommand _ _ _ _ => expiresIn = 3600
      | _ => False
      end)
  /\ (forall fileName contentType url,
         fst (invoke event)
         = Normal (formatResponse 200
                     (SingleUploadPlan fileName contentType url)) ->
         In (GetSignedUrl (PutObjectCommand BUCKET fileName contentType) 900,
             Resolve url)
            (snd (invoke event)))
  /\ (forall fileName contentType uploadId totalParts urls entry,
         fst (invoke event)
         = Normal (formatResponse 200
                     (MultipartStartPlan fileName contentType uploadId
                        totalParts urls)) ->
         In entry urls ->
         exists partNumber url,
           entry = JObj [("partNumber", JInt partNumber); ("url", url)]
           /\ In (GetSignedUrl
                    (UploadPartCommand BUCKET fileName uploadId partNumber)
                    3600,
                  Resolve url)
                 (snd (invoke event))).
Proof.
  destruct (parse_body event) as [parsed|e0] eqn:Hp.
  2:{ rewrite (invoke_malformed event e0 Hp). cbn [fst snd].
      split; [intros ? ? ? []|].
      split; intros; match goal with H : Normal _ = _ |- _ => payload_eq H end. }
  pose proof (invoke_Run event parsed Hp) as HR.
  destruct (invoke event) as [out tr]. cbn [fst snd] in *.
  inversion HR; subst;
    (split;
     [intros cmd expiresIn settled Hin
     |split;
      [intros fileName contentType url Hout
      |intros fileName contentType uploadId total urls entry Hout Hentry]]);
    try contradiction; try (payload_eq Hout; fail).
  - (* single: the call *)
    destruct Hin as [[= <- <- <-]|[]]. reflexivity.
  - (* single: the plan *)
    destruct s; payload_eq Hout. injection Hout as <- <- <-. now left.
  - destruct s; payload_eq Hout.
  - destruct Hin as [[=]|[]].
  - destruct Hin as [[=]|[]].
  - (* start: the calls *)
    destruct Hin as [[=]|Hin].
    apply part_calls_shape in Hin as (p & u & _ & [= -> ->] & _). reflexivity.
  - (* start: the plan *)
    payload_eq Hout. injection Hout as <- <- <- <- <-.
    apply in_map_iff in Hentry as ([p u] & <- & Hin).
    exists p, u. split; [reflexivity|]. right.
    apply in_map_iff. now exists (p, u).
  - (* start, a part refused: the calls *)
    destruct Hin as [[=]|Hin].
    apply in_app_or in Hin as [Hin|[[= <- <- <-]|[]]]; [|reflexivity].
    apply part_calls_shape in Hin as (p & u & _ & [= -> ->] & _). reflexivity.
  - destruct Hin as [[=]|[]].
  - destruct s; payload_eq Hout.
  - destruct s; payload_eq Hout.
Qed.

End Validity.

Lemma signed_url_validity_witness :
  In (GetSignedUrl
        (PutObjectCommand (JStr "buildlink-uploads") (JStr "a.bin")
           (JStr "application/octet-stream")) 900,
      Resolve (JStr "https://s3.example/signed"))
     (snd (Sample.run Sample.s3_up (Sample.request Sample.small)))
  /\ exists partNumber url,
      JObj [("partNumber", JInt 3); ("url", JStr "https://s3.example/signed")]
      = JObj [("partNumber", JInt partNumber); ("url", url)]
      /\ In (GetSignedUrl
               (UploadPartCommand (JStr "buildlink-uploads") (JStr "a.bin")
                  (JStr "session-1") partNumber) 3600,
             Resolve url)
            (snd (Sample.run Sample.s3_up (Sample.request Sample.large))).
Proof.
  split.
  - apply (@signed_url_validity (Sample.runtime Sample.s3_up)
             (Sample.request Sample.small)).
    reflexivity.
  - eapply (@signed_url_validity (Sample.runtime Sample.s3_up)
              (Sample.request Sample.large)).
    + reflexivity.
    + cbn. right. right. left. reflexivity.
Defined.

(** ** The response contract *)

Section Contract.

Context {rt : Runtime}.

(** Whenever the body is not [null], the handler returns a response: a
    status code, the one header [Content-Type: application/json], and a
    payload of exactly one of the four shapes, 200 going with the plans and
    the result and 400 or 500 with an error. *)
Lemma response_contract (event : Event) :
  (forall parsed, parse_body event = Normal parsed ->
                  parsed <> JNull /\ parsed <> JUndefined) ->
  exists status payload sh,
    fst (invoke event)
    = Normal {| statusCode := status;
                headers := [("Content-Type", "application/json")];
                body := JSON_stringify payload |}
    /\ shape_of payload = Some sh
    /\ status_fits status sh = true.
Proof.
  intro Hbody.
  destruct (parse_body event) as [parsed|e0] eqn:Hp.
  2:{ rewrite (invoke_malformed event e0 Hp).
      now exists 400, (error_body "Invalid JSON body"), IsErrorResponse. }
  destruct (Hbody parsed eq_refl) as [Hnull Hundef].
  pose proof (invoke_Run event parsed Hp) as HR.
  destruct (invoke event) as [out tr]. cbn [fst snd] in *.
  inversion HR; subst;
    try (now (eexists 500, _, IsErrorResponse));
    try (now (eexists 400, _, IsErrorResponse)).
  - destruct parsed; cbn in *; congruence.
  - destruct s.
    + now (eexists 200, _, IsSingleUploadPlan).
    + now (eexists 500, _, IsErrorResponse).
  - now (eexists 200, _, IsMultipartStartPlan).
  - destruct s.
    + now (eexists 200, _, IsMultipartCompleteResult).
    + now (eexists 500, _, IsErrorResponse).
Qed.

(** C9, at the body [null].  The invocation ends with the [TypeError] of
    the destructuring, so no response of any shape is returned. *)
Theorem null_body_no_response (response : Response) :
  fst (invoke {| event_body := Some (Encodes JNull) |}) <> Normal response.
Proof. discriminate. Qed.

End Contract.

(** * Further properties of the handler *)

(** Unfolds the responses of the handler so that two of them can be told
    apart or matched. *)
Ltac responses :=
  cbv [formatResponse error_body MISSING_FIELDS INVALID_MULTIPART
       SingleUploadPlan MultipartStartPlan MultipartCompleteResult] in *.

Section Guards.

Context {rt : Runtime}.

(** X1. On a body that is not [null], the answer "Missing 'fileName',
    'contentType' or 'fileSize'" with status 400 and no collaborator call is
    given exactly when one of the three fields is falsy: the other fields
    never hide a missing one, and no complete request is answered so. *)
Theorem required_fields_guard (event : Event) (parsed : JSValue) :
  parse_body event = Normal parsed ->
  parsed <> JNull -> parsed <> JUndefined ->
  invoke event
  = (Normal (formatResponse 400
               (error_body "Missing 'fileName', 'contentType' or 'fileSize'")),
     [])
  <-> (truthy (get parsed "fileName") = false
       \/ truthy (get parsed "contentType") = false
       \/ truthy (get parsed "fileSize") = false).
Proof.
  intros Hp Hnull Hundef.
  pose proof (invoke_Run event parsed Hp) as HR.
  destruct (invoke event) as [out tr]. cbn [fst snd] in HR.
  split.
  - intros [= -> ->].
    assert (Hv : required_present parsed = false).
    { inversion HR; subst; responses; try discriminate;
        try assumption;
        match goal with
        | s : Settled |- _ => destruct s; discriminate
        end. }
    unfold required_present in Hv.
    destruct (truthy (get parsed "fileName")); [|now left].
    destruct (truthy (get parsed "contentType")); [|now right; left].
    now right; right.
  - intro Hmiss.
    assert (Hv : required_present parsed = false).
    { unfold required_present.
      destruct Hmiss as [H|[H|H]]; rewrite H;
        now rewrite ?andb_false_r, ?andb_false_l. }
    inversion HR; subst; try congruence; try reflexivity.
    destruct parsed; cbn in *; congruence.
Qed.

(** X3. A request without a body, and one whose body is JSON but not an
    object (a number, a string, a boolean, an array), has none of the
    fields: it is answered 400 "Missing ..." with no collaborator call. *)
Theorem fieldless_body_400 (event : Event) :
  event_body event = None
  \/ (exists v,
         event_body event = Some (Encodes v)
         /\ v <> JNull /\ v <> JUndefined
         /\ forall props, v <> JObj props) ->
  invoke event
  = (Normal (formatResponse 400
               (error_body "Missing 'fileName', 'contentType' or 'fileSize'")),
     []).
Proof.
  intros [Hnone|(v & Hsome & Hnull & Hundef & Hobj)].
  - unfold invoke, handler, parse_body. now rewrite Hnone.
  - unfold invoke, handler, parse_body. rewrite Hsome. cbn [JSON_parse].
    destruct v; try reflexivity; congruence.
Qed.

(** X5. A response with status 400 carries one of three messages.  The
    fourth one in the source, "Invalid request flow", is never returned with
    it: [chooseUploadType] has no third answer. *)
Theorem validation_messages (event : Event) (r : Response) :
  fst (invoke event) = Normal r ->
  statusCode r = 400 ->
  r = formatResponse 400 (error_body "Invalid JSON body")
  \/ r = formatResponse 400
           (error_body "Missing 'fileName', 'contentType' or 'fileSize'")
  \/ r = formatResponse 400
           (error_body
              "Invalid multipart request. Make sure to provide 'uploadId', 'complete', and 'parts' when completing multipart upload.").
Proof.
  destruct (parse_body event) as [parsed|e0] eqn:Hp.
  2:{ rewrite (invoke_malformed event e0 Hp). cbn [fst].
      intros [= <-] _. now left. }
  pose proof (invoke_Run event parsed Hp) as HR.
  destruct (invoke event) as [out tr]. cbn [fst snd] in *.
  intros -> Hstatus.
  inversion HR; subst; cbn in Hstatus; try discriminate;
    try (now right; left); try (now right; right);
    match goal with
    | s : Settled |- _ => destruct s; discriminate
    end.
Qed.

(** X4. Status and calls go together on every path: a response with status
    400 was produced without any collaborator call, and one with status 200
    was produced after at least one call, all of which resolved. *)
Theorem status_and_calls (event : Event) (r : Response) :
  fst (invoke event) = Normal r ->
  (statusCode r = 400 -> snd (invoke event) = [])
  /\ (statusCode r = 200 ->
      snd (invoke event) <> [] /\ Forall resolved (snd (invoke event))).
Proof.
  destruct (parse_body event) as [parsed|e0] eqn:Hp.
  2:{ rewrite (invoke_malformed event e0 Hp). cbn [fst snd].
      intros [= <-]. split; [reflexivity|discriminate]. }
  pose proof (invoke_Run event parsed Hp) as HR.
  destruct (invoke event) as [out tr]. cbn [fst snd] in *.
  intros ->.
  inversion HR; subst; cbn [statusCode formatResponse];
    try (split; [reflexivity|discriminate]).
  - (* single *)
    destruct s; cbn [statusCode formatResponse]; split; try discriminate.
    intros _. split; [discriminate|]. repeat constructor. now eexists.
  - (* the session was refused *)
    split; discriminate.
  - split; discriminate.
  - (* started *)
    split; [discriminate|]. intros _. split; [discriminate|].
    constructor; [now eexists|apply part_calls_resolved].
  - split; discriminate.
  - (* complete *)
    destruct s; cbn [statusCode formatResponse]; split; try discriminate.
    intros _. split; [discriminate|]. repeat constructor. now eexists.
Qed.

End Guards.

(** ** The three paths, evaluated *)

Lemma zrange_snoc (start : Z) (n : nat) :
  zrange start (S n) = (zrange start n ++ [start + Z.of_nat n])%list.
Proof.
  revert start. induction n as [|n IH]; intro start.
  - cbn. now rewrite Z.add_0_r.
  - change (zrange start (S (S n)))
      with (start :: zrange (start + 1) (S n)).
    rewrite IH. cbn [zrange app]. do 3 f_equal. lia.
Qed.

Section Evaluated.

Context {rt : Runtime}.

Lemma part_calls_signed (fileName UploadId : JSValue) (numbers : list Z)
    (signed : list JSValue) :
  length signed = length numbers ->
  map fst (map (part_call fileName UploadId) (combine numbers signed))
  = map (sign_part fileName UploadId) numbers.
Proof.
  intro H. rewrite map_map.
  rewrite <- (map_fst_combine numbers signed) at 2 by now symmetry.
  rewrite map_map. apply map_ext. now intros [p url].
Qed.

Lemma destructure_present (first what : string) (v : JSValue) :
  v <> JNull -> v <> JUndefined -> destructure first what v = Normal v.
Proof. destruct v; cbn; congruence. Qed.

Lemma required_present_body (parsed : JSValue) :
  required_present parsed = true ->
  destructure "fileName" "body" parsed = Normal parsed.
Proof. destruct parsed; cbn; congruence. Qed.

(** The handler past its two guards: what is left is [negotiate] inside
    the [try] block. *)
Lemma invoke_negotiate (event : Event) (parsed : JSValue) :
  parse_body event = Normal parsed ->
  required_present parsed = true ->
  invoke event
  = try_catch
      (negotiate (get parsed "fileName") (get parsed "contentType")
         (get parsed "fileSize") (get parsed "uploadId")
         (get parsed "complete") (get parsed "parts"))
      (fun err => ret (formatResponse 500 (error_body (message err)))) [].
Proof.
  intros Hp Hv. unfold invoke, handler. rewrite Hp.
  unfold bind at 1. unfold lift.
  rewrite (required_present_body parsed Hv).
  unfold required_present in Hv.
  apply andb_prop in Hv as [Hv Hfs]. apply andb_prop in Hv as [Hfn Hct].
  now rewrite Hfn, Hct, Hfs.
Qed.

Lemma invoke_single (event : Event) (parsed : JSValue) :
  parse_body event = Normal parsed ->
  required_present parsed = true ->
  chooseUploadType (get parsed "fileSize") = Normal "single" ->
  let call :=
    GetSignedUrl
      (PutObjectCommand BUCKET (get parsed "fileName")
         (get parsed "contentType")) 900 in
  invoke event
  = (Normal match s3Client [] call with
            | Resolve url =>
                formatResponse 200
                  (SingleUploadPlan (get parsed "fileName")
                     (get parsed "contentType") url)
            | Reject e => formatResponse 500 (error_body (message e))
            end,
     [(call, s3Client [] call)]).
Proof.
  intros Hp Hv Hty call. rewrite (invoke_negotiate event parsed Hp Hv).
  unfold try_catch, negotiate. unfold bind at 1. unfold lift at 1.
  rewrite Hty. cbn [String.eqb Ascii.eqb Bool.eqb].
  unfold getPresignedUrl, bind, await, ret. cbn [app]. fold call.
  now destruct (s3Client [] call).
Qed.

Lemma invoke_complete (event : Event) (parsed : JSValue) :
  parse_body event = Normal parsed ->
  required_present parsed = true ->
  chooseUploadType (get parsed "fileSize") = Normal "multipart" ->
  truthy (get parsed "uploadId") = true ->
  truthy (get parsed "complete") = true ->
  truthy (get parsed "parts") = true ->
  let call :=
    Send (CompleteMultipartUploadCommand BUCKET (get parsed "fileName")
            (get parsed "uploadId") (get parsed "parts")) in
  invoke event
  = (Normal match s3Client [] call with
            | Resolve result =>
                formatResponse 200
                  (MultipartCompleteResult (get parsed "fileName") result)
            | Reject e => formatResponse 500 (error_body (message e))
            end,
     [(call, s3Client [] call)]).
Proof.
  intros Hp Hv Hty Hid Hc Hparts call.
  rewrite (invoke_negotiate event parsed Hp Hv).
  unfold try_catch, negotiate. unfold bind at 1. unfold lift at 1.
  rewrite Hty, Hid, Hc, Hparts. cbn [String.eqb Ascii.eqb Bool.eqb negb andb].
  unfold completeMultipart, bind, await, ret. cbn [app]. fold call.
  now destruct (s3Client [] call).
Qed.

(** X6. A request that is classified "single" is answered from [fileName]
    and [contentType] alone: two such requests that agree on these two
    fields get the same response after the same call, whatever their
    [fileSize], [uploadId], [complete] and [parts] are. *)
Theorem single_uses_name_and_type_only
    (event event' : Event) (parsed parsed' : JSValue) :
  parse_body event = Normal parsed ->
  parse_body event' = Normal parsed' ->
  required_present parsed = true ->
  required_present parsed' = true ->
  chooseUploadType (get parsed "fileSize") = Normal "single" ->
  chooseUploadType (get parsed' "fileSize") = Normal "single" ->
  get parsed "fileName" = get parsed' "fileName" ->
  get parsed "contentType" = get parsed' "contentType" ->
  invoke event = invoke event'.
Proof.
  intros Hp Hp' Hv Hv' Hty Hty' Hfn Hct.
  rewrite (invoke_single event parsed Hp Hv Hty).
  rewrite (invoke_single event' parsed' Hp' Hv' Hty').
  now rewrite Hfn, Hct.
Qed.

(** X11. A completion that the collaborator accepts is answered with status
    200 and a MultipartCompleteResult that carries the request's [fileName]
    and, as [result], the very value the collaborator resolved with; the
    completion is the only call. *)
Theorem completion_result_returned
    (event : Event) (parsed result : JSValue) :
  parse_body event = Normal parsed ->
  truthy (get parsed "fileName") = true ->
  truthy (get parsed "contentType") = true ->
  above_limit (get parsed "fileSize") ->
  truthy (get parsed "uploadId") = true ->
  truthy (get parsed "complete") = true ->
  truthy (get parsed "parts") = true ->
  s3Client []
    (Send (CompleteMultipartUploadCommand BUCKET (get parsed "fileName")
             (get parsed "uploadId") (get parsed "parts")))
  = Resolve result ->
  invoke event
  = (Normal (formatResponse 200
               (JObj [("uploadType", JStr "multipart");
                      ("fileName", get parsed "fileName");
                      ("result", result)])),
     [(Send (CompleteMultipartUploadCommand BUCKET (get parsed "fileName")
               (get parsed "uploadId") (get parsed "parts")),
       Resolve result)]).
Proof.
  intros Hp Hfn Hct Habove Hid Hc Hparts Hs.
  assert (Hv : required_present parsed = true).
  { unfold required_present.
    now rewrite Hfn, Hct, (above_limit_truthy _ Habove). }
  rewrite (invoke_complete event parsed Hp Hv
             (chooseUploadType_above _ Habove) Hid Hc Hparts).
  cbv zeta. now rewrite Hs.
Qed.

End Evaluated.

(** ** Starting a session: the calls, the sizes, the odd sizes *)

Section Sessions.

Context {rt : Runtime}.

Lemma multipart_above_limit (v : JSValue) (q : Q) :
  chooseUploadType v = Normal "multipart" ->
  ToNumber v = Normal (Fin q) ->
  (inject_Z SINGLE_UPLOAD_LIMIT < q)%Q.
Proof.
  unfold chooseUploadType. intros Hty Hq.
  destruct (negb (truthy v)); [discriminate|].
  rewrite Hq in Hty. cbn [and_then LIMIT num_leb] in Hty.
  destruct (Qle_bool q (inject_Z SINGLE_UPLOAD_LIMIT)) eqn:E; [discriminate|].
  apply Qnot_le_lt. intro Hle. apply Qle_bool_iff in Hle. congruence.
Qed.

(** X7. The calls of a start, whatever [complete] and [parts] are.  The
    first call opens the session for the bucket, [fileName] and
    [contentType]; when it is refused nothing follows; when it resolves,
    all that follows is the signing of parts 1, 2, ..., in this order, each
    for the [UploadId] this very call returned. *)
Theorem start_calls_in_order (event : Event) (parsed : JSValue) :
  parse_body event = Normal parsed ->
  required_present parsed = true ->
  chooseUploadType (get parsed "fileSize") = Normal "multipart" ->
  truthy (get parsed "uploadId") = false ->
  exists settled rest,
    snd (invoke event)
    = (Send (CreateMultipartUploadCommand BUCKET (get parsed "fileName")
               (get parsed "contentType")), settled) :: rest
    /\ (forall e, settled = Reject e -> rest = [])
    /\ (forall output, settled = Resolve output ->
          exists k,
            map fst rest
            = map (sign_part (get parsed "fileName") (get output "UploadId"))
                (zrange 1 k)).
Proof.
  intros Hp Hv Hty Hid.
  pose proof (invoke_Run event parsed Hp) as HR.
  destruct (invoke event) as [out tr]. cbn [fst snd] in *.
  inversion HR; subst; try absurd_run.
  - eexists _, []. split; [reflexivity|]. split; [reflexivity|discriminate].
  - eexists _, []. split; [reflexivity|]. split; [reflexivity|].
    intros ? _. now exists O.
  - eexists _, _. split; [reflexivity|]. split; [discriminate|].
    intros ? [= <-]. eexists. apply part_calls_signed.
    now rewrite zrange_length.
  - eexists _, _. split; [reflexivity|]. split; [discriminate|].
    intros ? [= <-]. exists (S (length signed)). subst numbered.
    rewrite map_app, part_calls_signed by now rewrite zrange_length.
    now rewrite zrange_snoc, map_app.
Qed.

(** X8. What a returned MultipartStartPlan says about the size.  When the
    [fileSize] of the request is a number and the answer is a plan, the size
    is above the limit, [totalParts] is a whole number of at least 2, it is
    the least number of parts of at most LIMIT bytes that cover the size,
    [urls] has that many entries, and the invocation made one call more. *)
Theorem plan_parts_cover_size (event : Event) (parsed : JSValue) (q : Q)
    (fileName contentType uploadId : JSValue) (parts : JSNumber)
    (urls : list JSValue) :
  parse_body event = Normal parsed ->
  ToNumber (get parsed "fileSize") = Normal (Fin q) ->
  fst (invoke event)
  = Normal (formatResponse 200
              (MultipartStartPlan fileName contentType uploadId parts urls)) ->
  exists t : Z,
    parts = Fin (inject_Z t)
    /\ 2 <= t
    /\ (inject_Z (t - 1) * inject_Z SINGLE_UPLOAD_LIMIT < q)%Q
    /\ (q <= inject_Z t * inject_Z SINGLE_UPLOAD_LIMIT)%Q
    /\ length urls = Z.to_nat t
    /\ length (snd (invoke event)) = S (Z.to_nat t).
Proof.
  intros Hp Hq Hout.
  pose proof (invoke_Run event parsed Hp) as HR.
  destruct (invoke event) as [out tr]. cbn [fst snd] in *. subst out.
  inversion HR; subst; responses; try discriminate;
    try match goal with
        | s : Settled |- _ => destruct s; discriminate
        end.
  subst numbered totalParts.
  match goal with
  | H : ToNumber _ = Normal ?size |- _ =>
      is_var size; rewrite Hq in H; injection H as <-
  end.
  match goal with
  | H : chooseUploadType _ = Normal "multipart" |- _ =>
      pose proof (multipart_above_limit _ q H Hq) as Hlt
  end.
  match goal with
  | H : length signed = _ |- _ => rename H into Hlen
  end.
  cbn [LIMIT num_div Math_ceil] in *.
  set (t := Qceiling (q / inject_Z SINGLE_UPLOAD_LIMIT)) in *.
  assert (Hn : iterations (Fin (inject_Z t)) 1 = Z.to_nat t).
  { unfold iterations. rewrite Qfloor_Z. f_equal. lia. }
  rewrite Hn in *.
  exists t. split; [reflexivity|].
  destruct (totalParts_covers q) as [Hlow Hhigh]. fold t in Hlow, Hhigh.
  split; [|split; [exact Hlow|split; [exact Hhigh|split]]].
  - assert (H1 : (1 < inject_Z t)%Q).
    { apply Qlt_le_trans with (q / inject_Z SINGLE_UPLOAD_LIMIT)%Q.
      - apply Qlt_shift_div_l; [reflexivity|]. now rewrite Qmult_1_l.
      - apply Qle_ceiling. }
    change 1%Q with (inject_Z 1) in H1. rewrite <- Zlt_Qlt in H1. lia.
  - rewrite length_map, length_combine, zrange_length. lia.
  - cbn [length]. rewrite length_map, length_combine, zrange_length. lia.
Qed.

(** X9. A [fileSize] that is truthy but converts to [NaN] (a string that
    is no number, say) is neither at most the limit nor above it, and is
    taken down the multipart path.  A start with it opens a session and
    returns a plan whose [totalParts] is [NaN] and whose [urls] is empty:
    the session is open and no part can be uploaded to it. *)
Theorem non_numeric_size_opens_empty_session
    (event : Event) (parsed output : JSValue) :
  parse_body event = Normal parsed ->
  required_present parsed = true ->
  ToNumber (get parsed "fileSize") = Normal NaN ->
  truthy (get parsed "uploadId") = false ->
  s3Client []
    (Send (CreateMultipartUploadCommand BUCKET (get parsed "fileName")
             (get parsed "contentType")))
  = Resolve output ->
  output <> JNull -> output <> JUndefined ->
  chooseUploadType (get parsed "fileSize") = Normal "multipart"
  /\ invoke event
     = (Normal (formatResponse 200
                  (JObj [("uploadType", JStr "multipart");
                         ("fileName", get parsed "fileName");
                         ("contentType", get parsed "contentType");
                         ("uploadId", get output "UploadId");
                         ("totalParts", JNum NaN);
                         ("urls", JArr [])])),
        [(Send (CreateMultipartUploadCommand BUCKET (get parsed "fileName")
                  (get parsed "contentType")), Resolve output)]).
Proof.
  intros Hp Hv Hnan Hid Hs Hnull Hundef.
  assert (Hty : chooseUploadType (get parsed "fileSize") = Normal "multipart").
  { unfold chooseUploadType. unfold required_present in Hv.
    apply andb_prop in Hv as [_ ->]. cbn [negb]. now rewrite Hnan. }
  split; [exact Hty|].
  rewrite (invoke_negotiate event parsed Hp Hv).
  unfold try_catch, negotiate. unfold bind at 1. unfold lift at 1.
  rewrite Hty, Hid. cbn [String.eqb Ascii.eqb Bool.eqb negb].
  unfold startMultipart. unfold bind at 1. unfold bind at 1.
  unfold lift at 1. rewrite Hnan. unfold bind at 1.
  unfold await at 1. cbn [app]. rewrite Hs. cbn [settle].
  unfold bind at 1. unfold lift.
  now rewrite (destructure_present _ _ output Hnull Hundef).
Qed.

(** X10. A 500 need not come from the collaborator.  When the conversion of
    [fileSize] to a number throws (an object whose [toString] is hidden by a
    property of that name), the comparison with the limit throws inside the
    [try] block: the answer is status 500 with that error's message, and no
    call was made. *)
Theorem unconvertible_size_500 (event : Event) (parsed : JSValue)
    (e : JSError) :
  parse_body event = Normal parsed ->
  truthy (get parsed "fileName") = true ->
  truthy (get parsed "contentType") = true ->
  ToNumber (get parsed "fileSize") = Abrupt e ->
  invoke event
  = (Normal (formatResponse 500 (JObj [("error", JStr (message e))])), []).
Proof.
  intros Hp Hfn Hct He.
  assert (Hfs : truthy (get parsed "fileSize") = true).
  { destruct (get parsed "fileSize"); cbn in He |- *;
      try discriminate; reflexivity. }
  assert (Hv : required_present parsed = true).
  { unfold required_present. now rewrite Hfn, Hct, Hfs. }
  rewrite (invoke_negotiate event parsed Hp Hv).
  unfold try_catch, negotiate. unfold bind at 1. unfold lift at 1.
  unfold chooseUploadType. rewrite Hfs, He. reflexivity.
Qed.

End Sessions.

(** ** What reaches the collaborator, and what comes back *)

Section Discipline.

Context {rt : Runtime}.

(** X12. Every command of every invocation, signed or sent, is built for
    the configured bucket and has the request's [fileName] as its key: the
    handler touches no other bucket and no other object. *)
Theorem calls_target_bucket_and_key (event : Event) (parsed : JSValue)
    (call : Call) (settled : Settled) :
  parse_body event = Normal parsed ->
  In (call, settled) (snd (invoke event)) ->
  bucket_of (command_of call) = BUCKET
  /\ key_of (command_of call) = get parsed "fileName".
Proof.
  intros Hp.
  pose proof (invoke_Run event parsed Hp) as HR.
  destruct (invoke event) as [out tr]. cbn [fst snd] in *.
  inversion HR; subst; cbn [In]; intro Hin; try contradiction;
    try (destruct Hin as [[= <- <-]|[]]; now split).
  - destruct Hin as [[= <- <-]|Hin]; [now split|].
    now apply part_calls_shape in Hin as (? & ? & _ & -> & _).
  - destruct Hin as [[= <- <-]|Hin]; [now split|].
    apply in_app_or in Hin as [Hin|[[= <- <-]|[]]]; [|now split].
    now apply part_calls_shape in Hin as (? & ? & _ & -> & _).
Qed.

(** X13. Nothing is sent that the request did not ask for.  A command goes
    through [s3Client.send] only on the multipart path, and it is either the
    opening of a session, which needs a falsy [uploadId], or the completion
    of the session named by the request's [uploadId] with the request's
    [parts], which needs [uploadId], [complete] and [parts] all truthy. *)
Theorem send_only_when_asked (event : Event) (parsed : JSValue)
    (cmd : Command) (settled : Settled) :
  parse_body event = Normal parsed ->
  In (Send cmd, settled) (snd (invoke event)) ->
  chooseUploadType (get parsed "fileSize") = Normal "multipart"
  /\ ((cmd = CreateMultipartUploadCommand BUCKET (get parsed "fileName")
               (get parsed "contentType")
       /\ truthy (get parsed "uploadId") = false)
      \/ (cmd = CompleteMultipartUploadCommand BUCKET (get parsed "fileName")
                  (get parsed "uploadId") (get parsed "parts")
          /\ truthy (get parsed "uploadId") = true
          /\ truthy (get parsed "complete") = true
          /\ truthy (get parsed "parts") = true)).
Proof.
  intros Hp.
  pose proof (invoke_Run event parsed Hp) as HR.
  destruct (invoke event) as [out tr]. cbn [fst snd] in *.
  inversion HR; subst; cbn [In]; intro Hin; try contradiction.
  - destruct Hin as [[=]|[]].
  - destruct Hin as [[= <- <-]|[]]. split; [assumption|now left].
  - destruct Hin as [[= <- <-]|[]]. split; [assumption|now left].
  - destruct Hin as [[= <- <-]|Hin]; [split; [assumption|now left]|].
    apply part_calls_shape in Hin as (? & ? & _ & [=] & _).
  - destruct Hin as [[= <- <-]|Hin]; [split; [assumption|now left]|].
    apply in_app_or in Hin as [Hin|[[=]|[]]].
    apply part_calls_shape in Hin as (? & ? & _ & [=] & _).
  - destruct Hin as [[= <- <-]|[]]. split; [assumption|right].
    match goal with
    | H : _ && _ && _ = true |- _ =>
        apply andb_prop in H as [H ?]; apply andb_prop in H as [? ?]
    end.
    auto.
Qed.

(** X2. Every response the handler returns is well formed: its only header
    is [Content-Type: application/json], its payload has exactly one of the
    four shapes, and its status is 200 with a plan or a result and 400 or
    500 with an error. *)
Theorem every_response_well_formed (event : Event) (r : Response) :
  fst (invoke event) = Normal r ->
  headers r = [("Content-Type", "application/json")]
  /\ exists payload sh,
      body r = JSON_stringify payload
      /\ shape_of payload = Some sh
      /\ status_fits (statusCode r) sh = true.
Proof.
  destruct (parse_body event) as [parsed|e0] eqn:Hp.
  2:{ rewrite (invoke_malformed event e0 Hp). cbn [fst].
      intros [= <-]. split; [reflexivity|].
      now exists (error_body "Invalid JSON body"), IsErrorResponse. }
  pose proof (invoke_Run event parsed Hp) as HR.
  destruct (invoke event) as [out tr]. cbn [fst snd] in *.
  intros ->.
  inversion HR; subst;
    try (split; [reflexivity|]; now (eexists _, IsErrorResponse)).
  - destruct s; (split; [reflexivity|]).
    + now (eexists _, IsSingleUploadPlan).
    + now (eexists _, IsErrorResponse).
  - split; [reflexivity|]. now (eexists _, IsMultipartStartPlan).
  - destruct s; (split; [reflexivity|]).
    + now (eexists _, IsMultipartCompleteResult).
    + now (eexists _, IsErrorResponse).
Qed.

End Discipline.

(** ** The further properties on sample requests *)

(** Only [uploadId], [complete] and [parts]: the three required fields are
    missing. *)
Lemma required_fields_guard_witness :
  Sample.run Sample.s3_up (Sample.request Sample.completion)
  = (Normal (formatResponse 400
               (error_body "Missing 'fileName', 'contentType' or 'fileSize'")),
     []).
Proof.
  apply (@required_fields_guard (Sample.runtime Sample.s3_up)
           (Sample.request Sample.completion) (JObj Sample.completion));
    try reflexivity; try discriminate.
  left. reflexivity.
Defined.

Lemma every_response_well_formed_witness :
  headers (formatResponse 500 (error_body "Access Denied"))
  = [("Content-Type", "application/json")]
  /\ exists payload sh,
      body (formatResponse 500 (error_body "Access Denied"))
      = JSON_stringify payload
      /\ shape_of payload = Some sh
      /\ status_fits 500 sh = true.
Proof.
  apply (@every_response_well_formed (Sample.runtime Sample.s3_flaky)
           (Sample.request Sample.large)
           (formatResponse 500 (error_body "Access Denied"))).
  reflexivity.
Defined.

(** No body at all. *)
Lemma fieldless_body_400_witness :
  Sample.run Sample.s3_up {| event_body := None |}
  = (Normal (formatResponse 400
               (error_body "Missing 'fileName', 'contentType' or 'fileSize'")),
     []).
Proof.
  apply (@fieldless_body_400 (Sample.runtime Sample.s3_up)
           {| event_body := None |}).
  left. reflexivity.
Defined.

(** 12 MiB, started: status 200 after four resolved calls. *)
Lemma status_and_calls_witness :
  snd (Sample.run Sample.s3_up (Sample.request Sample.large)) <> []
  /\ Forall resolved
       (snd (Sample.run Sample.s3_up (Sample.request Sample.large))).
Proof.
  eapply (@status_and_calls (Sample.runtime Sample.s3_up)
            (Sample.request Sample.large)).
  - vm_compute. reflexivity.
  - reflexivity.
Defined.

(** 12 MiB with an [uploadId] and nothing else. *)
Lemma validation_messages_witness :
  formatResponse 400 (error_body INVALID_MULTIPART)
  = formatResponse 400 (error_body "Invalid JSON body")
  \/ formatResponse 400 (error_body INVALID_MULTIPART)
     = formatResponse 400
         (error_body "Missing 'fileName', 'contentType' or 'fileSize'")
  \/ formatResponse 400 (error_body INVALID_MULTIPART)
     = formatResponse 400
         (error_body
            "Invalid multipart request. Make sure to provide 'uploadId', 'complete', and 'parts' when completing multipart upload.").
Proof.
  apply (@validation_messages (Sample.runtime Sample.s3_up)
           (Sample.request
              (Sample.large ++ [("uploadId", JStr "session-1")])%list)
           (formatResponse 400 (error_body INVALID_MULTIPART)));
    reflexivity.
Defined.

(** 1 MiB, and 5 bytes with the fields of a completion: the same answer. *)
Lemma single_uses_name_and_type_only_witness :
  Sample.run Sample.s3_up (Sample.request Sample.small)
  = Sample.run Sample.s3_up
      (Sample.request
         ([("fileSize", JInt 5); ("contentType", JStr "application/octet-stream");
           ("fileName", JStr "a.bin")] ++ Sample.completion)%list).
Proof.
  apply (@single_uses_name_and_type_only (Sample.runtime Sample.s3_up)
           (Sample.request Sample.small)
           (Sample.request
              ([("fileSize", JInt 5);
                ("contentType", JStr "application/octet-stream");
                ("fileName", JStr "a.bin")] ++ Sample.completion)%list)
           (JObj Sample.small)
           (JObj
              ([("fileSize", JInt 5);
                ("contentType", JStr "application/octet-stream");
                ("fileName", JStr "a.bin")] ++ Sample.completion)%list));
    reflexivity.
Defined.

Lemma completion_result_returned_witness :
  Sample.run Sample.s3_up
    (Sample.request (Sample.large ++ Sample.completion)%list)
  = (Normal (formatResponse 200
               (JObj [("uploadType", JStr "multipart");
                      ("fileName", JStr "a.bin");
                      ("result",
                       JObj [("Location",
                              JStr "https://s3.example/object")])])),
     [(Send (CompleteMultipartUploadCommand (JStr "buildlink-uploads")
               (JStr "a.bin") (JStr "session-1") Sample.one_part),
       Resolve (JObj [("Location", JStr "https://s3.example/object")]))]).
Proof.
  apply (@completion_result_returned (Sample.runtime Sample.s3_up)
           (Sample.request (Sample.large ++ Sample.completion)%list)
           (JObj (Sample.large ++ Sample.completion)%list)
           (JObj [("Location", JStr "https://s3.example/object")]));
    try reflexivity.
  exists (inject_Z 12582912). split; reflexivity.
Defined.

(** 12 MiB with an empty [uploadId], [complete] and [parts]: a session is
    opened, part 1 is signed, the signing of part 2 is refused. *)
Lemma start_calls_in_order_witness :
  exists settled rest,
    snd (Sample.run Sample.s3_flaky
           (Sample.request
              (Sample.large
               ++ [("uploadId", JStr ""); ("complete", JBool true);
                   ("parts", Sample.one_part)])%list))
    = (Send (CreateMultipartUploadCommand (JStr "buildlink-uploads")
               (JStr "a.bin") (JStr "application/octet-stream")), settled)
      :: rest
    /\ (forall e, settled = Reject e -> rest = [])
    /\ (forall output, settled = Resolve output ->
          exists k,
            map fst rest
            = map (@sign_part (Sample.runtime Sample.s3_flaky) (JStr "a.bin")
                     (get output "UploadId"))
                (zrange 1 k)).
Proof.
  apply (@start_calls_in_order (Sample.runtime Sample.s3_flaky)
           (Sample.request
              (Sample.large
               ++ [("uploadId", JStr ""); ("complete", JBool true);
                   ("parts", Sample.one_part)])%list)
           (JObj
              (Sample.large
               ++ [("uploadId", JStr ""); ("complete", JBool true);
                   ("parts", Sample.one_part)])%list));
    reflexivity.
Defined.

(** 12 MiB: three parts, four calls. *)
Lemma plan_parts_cover_size_witness :
  exists t : Z,
    Fin (inject_Z 3) = Fin (inject_Z t)
    /\ 2 <= t
    /\ (inject_Z (t - 1) * inject_Z SINGLE_UPLOAD_LIMIT
        < inject_Z 12582912)%Q
    /\ (inject_Z 12582912 <= inject_Z t * inject_Z SINGLE_UPLOAD_LIMIT)%Q
    /\ length
         (map part_entry
            [(1, JStr "https://s3.example/signed");
             (2, JStr "https://s3.example/signed");
             (3, JStr "https://s3.example/signed")])
       = Z.to_nat t
    /\ length (snd (Sample.run Sample.s3_up (Sample.request Sample.large)))
       = S (Z.to_nat t).
Proof.
  apply (@plan_parts_cover_size (Sample.runtime Sample.s3_up)
           (Sample.request Sample.large) (JObj Sample.large)
           (inject_Z 12582912) (JStr "a.bin")
           (JStr "application/octet-stream") (JStr "session-1"));
    reflexivity.
Defined.

(** [fileSize: "huge"]. *)
Lemma non_numeric_size_opens_empty_session_witness :
  Edge.run Sample.s3_up (Sample.request Edge.huge)
  = (Normal (formatResponse 200
               (JObj [("uploadType", JStr "multipart");
                      ("fileName", JStr "a.bin");
                      ("contentType", JStr "application/octet-stream");
                      ("uploadId", JStr "session-1");
                      ("totalParts", JNum NaN);
                      ("urls", JArr [])])),
     [(Send (CreateMultipartUploadCommand (JStr "buildlink-uploads")
               (JStr "a.bin") (JStr "application/octet-stream")),
       Resolve (JObj [("UploadId", JStr "session-1")]))]).
Proof.
  apply (@non_numeric_size_opens_empty_session (Edge.runtime Sample.s3_up)
           (Sample.request Edge.huge) (JObj Edge.huge)
           (JObj [("UploadId", JStr "session-1")]));
    try reflexivity; discriminate.
Defined.

(** [fileSize: { "toString": 1 }]. *)
Lemma unconvertible_size_500_witness :
  Edge.run Sample.s3_up (Sample.request Edge.shadowed)
  = (Normal (formatResponse 500
               (JObj [("error",
                       JStr "Cannot convert object to primitive value")])),
     []).
Proof.
  apply (@unconvertible_size_500 (Edge.runtime Sample.s3_up)
           (Sample.request Edge.shadowed) (JObj Edge.shadowed)
           (mkError "TypeError" "Cannot convert object to primitive value"));
    reflexivity.
Defined.

(** The signing of part 2 of a 12 MiB upload. *)
Lemma calls_target_bucket_and_key_witness :
  bucket_of
    (UploadPartCommand (JStr "buildlink-uploads") (JStr "a.bin")
       (JStr "session-1") 2)
  = JStr "buildlink-uploads"
  /\ key_of
       (UploadPartCommand (JStr "buildlink-uploads") (JStr "a.bin")
          (JStr "session-1") 2)
     = JStr "a.bin".
Proof.
  apply (@calls_target_bucket_and_key (Sample.runtime Sample.s3_up)
           (Sample.request Sample.large) (JObj Sample.large)
           (GetSignedUrl
              (UploadPartCommand (JStr "buildlink-uploads") (JStr "a.bin")
                 (JStr "session-1") 2) 3600)
           (Resolve (JStr "https://s3.example/signed"))).
  - reflexivity.
  - vm_compute. right. right. left. reflexivity.
Defined.

(** The completion of a 12 MiB upload. *)
Lemma send_only_when_asked_witness :
  @chooseUploadType (Sample.runtime Sample.s3_up) (JInt 12582912)
  = Normal "multipart"
  /\ ((CompleteMultipartUploadCommand (JStr "buildlink-uploads")
         (JStr "a.bin") (JStr "session-1") Sample.one_part
       = CreateMultipartUploadCommand (JStr "buildlink-uploads")
           (JStr "a.bin") (JStr "application/octet-stream")
       /\ truthy (JStr "session-1") = false)
      \/ (CompleteMultipartUploadCommand (JStr "buildlink-uploads")
            (JStr "a.bin") (JStr "session-1") Sample.one_part
          = CompleteMultipartUploadCommand (JStr "buildlink-uploads")
              (JStr "a.bin") (JStr "session-1") Sample.one_part
          /\ truthy (JStr "session-1") = true
          /\ truthy (JBool true) = true
          /\ truthy Sample.one_part = true)).
Proof.
  apply (@send_only_when_asked (Sample.runtime Sample.s3_up)
           (Sample.request (Sample.large ++ Sample.completion)%list)
           (JObj (Sample.large ++ Sample.completion)%list)
           (CompleteMultipartUploadCommand (JStr "buildlink-uploads")
              (JStr "a.bin") (JStr "session-1") Sample.one_part)
           (Resolve (JObj [("Location", JStr "https://s3.example/object")]))).
  - reflexivity.
  - vm_compute. left. reflexivity.
Defined.
